(** * make-dns-records: zone generation and reverse-DNS derivation

    A shallow embedding of [scripts/make-dns-records.py].  The script keeps
    its state in two module-level dictionaries ([ptr_records] and
    [namedconf_entries]) and in the zone files it writes; here that state is
    an explicit record threaded through a small state-and-exception monad.

    The script leans on CPython's [ipaddress] module (3.11).  The parts it
    calls are embedded in [Module ipaddress] below, following the library's
    own functions one by one. *)

From Stdlib Require Import ZArith Ascii String List Lia DecimalString.
From stdpp Require Import base decidable option list gmap strings.

Local Open Scope Z_scope.

(** ** Python strings *)

Module Py.

(** [c in s] for a one-character [c]. *)
Fixpoint contains (c : ascii) (s : string) : bool :=
  match s with
  | EmptyString => false
  | String c' s' => if Ascii.eqb c' c then true else contains c s'
  end.

(** [s.split(sep)] for a one-character separator: never the empty list. *)
Fixpoint split (sep : ascii) (s : string) : list string :=
  match s with
  | EmptyString => [EmptyString]
  | String c s' =>
      if Ascii.eqb c sep then EmptyString :: split sep s'
      else match split sep s' with
           | [] => [String c EmptyString]
           | p :: ps => String c p :: ps
           end
  end.

(** [sep.join(parts)]. *)
Definition join (sep : string) (parts : list string) : string :=
  String.concat sep parts.

(** [s.lstrip(chars)]: drops the longest prefix made of characters of
    [chars], whatever their order. *)
Fixpoint lstrip (chars : string) (s : string) : string :=
  match s with
  | EmptyString => EmptyString
  | String c s' => if contains c chars then lstrip chars s' else s
  end.

(** [s.replace(old, new)] for a one-character [old]. *)
Fixpoint replace (old : ascii) (new : string) (s : string) : string :=
  match s with
  | EmptyString => EmptyString
  | String c s' =>
      if Ascii.eqb c old then new +:+ replace old new s'
      else String c (replace old new s')
  end.

(** [s.startswith(p)] and [s.endswith(p)]. *)
Definition startswith (s p : string) : bool := String.prefix p s.

Definition endswith (s p : string) : bool :=
  let n := String.length s in
  let k := String.length p in
  if (n <? k)%nat then false
  else String.eqb (String.substring (n - k) k s) p.

(** [s[::-1]]. *)
Fixpoint reversed (s : string) : string :=
  match s with
  | EmptyString => EmptyString
  | String c s' => reversed s' +:+ String c EmptyString
  end.

(** [s[:k]] for any integer [k]; a negative [k] counts from the end. *)
Definition slice_to (s : string) (k : Z) : string :=
  let n := Z.of_nat (String.length s) in
  let stop := if k <? 0 then Z.max 0 (n + k) else Z.min k n in
  String.substring 0 (Z.to_nat stop) s.

(** [s.upper()] on ASCII text; other bytes are left as they are. *)
Definition upper_char (c : ascii) : ascii :=
  let n := nat_of_ascii c in
  if ((97 <=? n) && (n <=? 122))%nat then ascii_of_nat (n - 32) else c.

Fixpoint upper (s : string) : string :=
  match s with
  | EmptyString => EmptyString
  | String c s' => String (upper_char c) (upper s')
  end.

(** [s.partition(sep)] for a one-character separator, as
    (head, found, tail). *)
Fixpoint partition (sep : ascii) (s : string) : string * bool * string :=
  match s with
  | EmptyString => (EmptyString, false, EmptyString)
  | String c s' =>
      if Ascii.eqb c sep then (EmptyString, true, s')
      else let '(h, f, t) := partition sep s' in (String c h, f, t)
  end.

Definition is_digit (c : ascii) : bool :=
  let n := nat_of_ascii c in ((48 <=? n) && (n <=? 57))%nat.

Fixpoint all_chars (p : ascii -> bool) (s : string) : bool :=
  match s with
  | EmptyString => true
  | String c s' => p c && all_chars p s'
  end.

(** [s.isascii() and s.isdigit()]: non-empty and ASCII digits only. *)
Definition isdigit (s : string) : bool :=
  match s with
  | EmptyString => false
  | _ => all_chars is_digit s
  end.

(** [int(s, 10)] on a string of ASCII digits. *)
Fixpoint int10_acc (acc : Z) (s : string) : Z :=
  match s with
  | EmptyString => acc
  | String c s' => int10_acc (10 * acc + (Z.of_nat (nat_of_ascii c) - 48)) s'
  end.

Definition int10 (s : string) : Z := int10_acc 0 s.

(** [str(n)] for an integer. *)
Definition str (n : Z) : string := NilZero.string_of_int (Z.to_int n).

(** *** Dictionaries

    A Python [dict] iterates in insertion order, and assigning to a key that
    is already present keeps the key's place: an association list with at
    most one pair per key. *)

Section Dict.
Context {K V : Type} `{EqDecision K}.

Fixpoint dict_get (k : K) (d : list (K * V)) : option V :=
    match d with
    | [] => None
    | (k', v) :: d' => if decide (k = k') then Some v else dict_get k d'
    end.

(** [d[k] = v]. *)
Fixpoint dict_set (k : K) (v : V) (d : list (K * V)) : list (K * V) :=
    match d with
    | [] => [(k, v)]
    | (k', v') :: d' =>
        if decide (k = k') then (k', v) :: d'
        else (k', v') :: dict_set k v d'
    end.

Definition dict_keys (d : list (K * V)) : list K := map fst d.
End Dict.

(** *** Exceptions and state

    An exception leaves every effect performed before it in place, so a
    computation returns its outcome together with the state it reached.
    [ValueError] is a [ValueError] the script raises itself, with its
    message; [LibValueError], [AddressValueError] and [NetmaskValueError]
    are the [ValueError]s of the [ipaddress] module. *)

Inductive exception : Type :=
  | ValueError (msg : string)
  | LibValueError (text : string)
  | AddressValueError (text : string)
  | NetmaskValueError (text : string)
  | KeyError (key : string)
  | AssertionError.

Inductive outcome (A : Type) : Type :=
  | Return (a : A)
  | Raise (e : exception).
Arguments Return {A} a.
Arguments Raise {A} e.

Definition M (S A : Type) : Type := S -> outcome A * S.

Definition ret {S A} (a : A) : M S A := fun s => (Return a, s).

Definition raise {S A} (e : exception) : M S A := fun s => (Raise e, s).

Definition bind {S A B} (m : M S A) (k : A -> M S B) : M S B :=
  fun s =>
    match m s with
    | (Return a, s') => k a s'
    | (Raise e, s') => (Raise e, s')
    end.

(** A pure computation that may raise, run inside the monad. *)
Definition lift {S A} (r : outcome A) : M S A := fun s => (r, s).

(** [for x in xs: body(x)]; the first exception ends the loop. *)
Fixpoint for_each {S A} (xs : list A) (body : A -> M S unit) : M S unit :=
  match xs with
  | [] => ret tt
  | x :: xs' => bind (body x) (fun _ => for_each xs' body)
  end.

(** [d[key]] on a dictionary read from the configuration. *)
Definition getitem {V} (key : string) (d : list (string * V)) : outcome V :=
  match dict_get key d with
  | Some v => Return v
  | None => Raise (KeyError key)
  end.

Definition obind {A B} (r : outcome A) (k : A -> outcome B) : outcome B :=
  match r with
  | Return a => k a
  | Raise e => Raise e
  end.

End Py.

Import Py.

Notation "x <- m ;; k" := (bind m (fun x => k))
  (at level 100, m at next level, right associativity).
Notation "m ;;; k" := (bind m (fun _ => k))
  (at level 100, right associativity).
Notation "x <-? r ;; k" := (obind r (fun x => k))
  (at level 100, r at next level, right associativity).

(** ** The [ipaddress] module

    Error messages of the library are not reproduced: an exception carries
    the text the library complains about. *)

Module ipaddress.

Definition IPV4LENGTH : Z := 32.
Definition IPV6LENGTH : Z := 128.

(** [IPv4Address] and [IPv6Address] objects.  Equality and hashing compare
    the version and the integer, and for IPv6 the scope id as well. *)
Inductive ipaddr : Type :=
  | IPv4Address (_ip : Z)
  | IPv6Address (_ip : Z) (_scope_id : option string).

#[global] Instance ipaddr_eq_dec : EqDecision ipaddr.
Proof. solve_decision. Defined.

Definition version (a : ipaddr) : Z :=
  match a with IPv4Address _ => 4 | IPv6Address _ _ => 6 end.

(** [int(a)]. *)
Definition int (a : ipaddr) : Z :=
  match a with IPv4Address ip => ip | IPv6Address ip _ => ip end.

Definition max_prefixlen (v : Z) : Z :=
  if v =? 4 then IPV4LENGTH else IPV6LENGTH.

Definition ALL_ONES (v : Z) : Z := 2 ^ max_prefixlen v - 1.

Fixpoint mapM {A B} (f : A -> outcome B) (l : list A) : outcome (list B) :=
  match l with
  | [] => Return []
  | x :: l' => y <-? f x ;; ys <-? mapM f l' ;; Return (y :: ys)
  end.

(** [int.from_bytes(bs, 'big')] and [n.to_bytes(4, 'big')]. *)
Definition from_bytes (bs : list Z) : Z :=
  fold_left (fun acc b => acc * 256 + b) bs 0.

Definition to_bytes4 (n : Z) : list Z :=
  [Z.land (Z.shiftr n 24) 255; Z.land (Z.shiftr n 16) 255;
   Z.land (Z.shiftr n 8) 255; Z.land n 255].

(** *** IPv4 text *)

(** [_BaseV4._parse_octet]. *)
Definition _parse_octet (octet_str : string) : outcome Z :=
  if String.eqb octet_str "" then Raise (LibValueError octet_str)
  else if negb (isdigit octet_str) then Raise (LibValueError octet_str)
  else if (3 <? String.length octet_str)%nat then Raise (LibValueError octet_str)
  else if negb (String.eqb octet_str "0") && startswith octet_str "0"
       then Raise (LibValueError octet_str)
  else let octet_int := int10 octet_str in
       if 255 <? octet_int then Raise (LibValueError octet_str)
       else Return octet_int.

(** [_BaseV4._ip_int_from_string]. *)
Definition _ip_int_from_string4 (ip_str : string) : outcome Z :=
  if String.eqb ip_str "" then Raise (AddressValueError ip_str)
  else
    let octets := split "." ip_str in
    if negb (length octets =? 4)%nat then Raise (AddressValueError ip_str)
    else match mapM _parse_octet octets with
         | Return bs => Return (from_bytes bs)
         | Raise _ => Raise (AddressValueError ip_str)
         end.

(** [IPv4Address(address)] on a string. *)
Definition IPv4Address_of_str (address : string) : outcome ipaddr :=
  if contains "/" address then Raise (AddressValueError address)
  else ip <-? _ip_int_from_string4 address ;; Return (IPv4Address ip).

(** [_BaseV4._string_from_ip_int]. *)
Definition _string_from_ip_int4 (ip_int : Z) : string :=
  join "." (map str (to_bytes4 ip_int)).

(** *** IPv6 text *)

Definition is_hex_digit (c : ascii) : bool :=
  contains c "0123456789ABCDEFabcdef".

Definition hex_value (c : ascii) : Z :=
  let n := Z.of_nat (nat_of_ascii c) in
  if is_digit c then n - 48
  else if n <? 97 then n - 55 else n - 87.

(** [int(s, 16)] on a string of hexadecimal digits. *)
Definition int16 (s : string) : Z :=
  fold_left (fun acc c => 16 * acc + hex_value c) (list_ascii_of_string s) 0.

Definition hex_digit (n : Z) : ascii :=
  ascii_of_nat (Z.to_nat (if n <? 10 then 48 + n else 87 + n)).

(** The [k] low hexadecimal digits of [n], most significant first. *)
Fixpoint hex_digits (k : nat) (n : Z) : string :=
  match k with
  | O => EmptyString
  | S k' => hex_digits k' (Z.shiftr n 4) +:+ String (hex_digit (Z.land n 15)) EmptyString
  end.

(** ['%x' % n] for [0 <= n < 2^16]: no leading zeros. *)
Definition hex16 (n : Z) : string :=
  match lstrip "0" (hex_digits 4 n) with
  | EmptyString => "0"
  | s => s
  end.

(** [_BaseV6._parse_hextet]; [int('', 16)] raises as well. *)
Definition _parse_hextet (hextet_str : string) : outcome Z :=
  if negb (all_chars is_hex_digit hextet_str) then Raise (LibValueError hextet_str)
  else if (4 <? String.length hextet_str)%nat then Raise (LibValueError hextet_str)
  else if String.eqb hextet_str "" then Raise (LibValueError hextet_str)
  else Return (int16 hextet_str).

Definition HEXTET_COUNT : nat := 8.

(** [ip_int <<= 16; ip_int |= _parse_hextet(part)] over [parts]. *)
Fixpoint _shift_in (ip_int : Z) (parts : list string) : outcome Z :=
  match parts with
  | [] => Return ip_int
  | p :: ps =>
      h <-? _parse_hextet p ;; _shift_in (Z.lor (Z.shiftl ip_int 16) h) ps
  end.

(** [_BaseV6._ip_int_from_string].  The loop that looks for the one empty
    part strictly between the endpoints is the [filter] over the inner
    indices. *)
Definition _ip_int_from_string6 (ip_str : string) : outcome Z :=
  if String.eqb ip_str "" then Raise (AddressValueError ip_str)
  else
    let parts0 := split ":" ip_str in
    if (length parts0 <? 3)%nat then Raise (AddressValueError ip_str)
    else
      let last_part := List.last parts0 EmptyString in
      match (if contains "." last_part then
               match IPv4Address_of_str last_part with
               | Return a =>
                   let ipv4_int := int a in
                   Return (removelast parts0 ++
                           [hex16 (Z.land (Z.shiftr ipv4_int 16) 65535);
                            hex16 (Z.land ipv4_int 65535)])
               | Raise _ => Raise (AddressValueError ip_str)
               end
             else Return parts0) with
      | Raise e => Raise e
      | Return parts =>
          let n := length parts in
          if (HEXTET_COUNT + 1 <? n)%nat then Raise (AddressValueError ip_str)
          else
            let empties :=
              filter (fun i => String.eqb (nth i parts "x") "")
                     (seq 1 (n - 2)) in
            let first_empty := String.eqb (nth 0 parts "x") "" in
            let last_empty := String.eqb (List.last parts "x") "" in
            match empties with
            | _ :: _ :: _ => Raise (AddressValueError ip_str)
            | [skip_index] =>
                let parts_hi := (if first_empty then skip_index - 1 else skip_index)%nat in
                let parts_lo := (if last_empty then n - skip_index - 1 - 1
                                 else n - skip_index - 1)%nat in
                if first_empty && negb (parts_hi =? 0)%nat then Raise (AddressValueError ip_str)
                else if last_empty && negb (parts_lo =? 0)%nat then Raise (AddressValueError ip_str)
                else if (HEXTET_COUNT <? parts_hi + parts_lo + 1)%nat then Raise (AddressValueError ip_str)
                else
                  let parts_skipped := (HEXTET_COUNT - (parts_hi + parts_lo))%nat in
                  match _shift_in 0 (firstn parts_hi parts) with
                  | Raise _ => Raise (AddressValueError ip_str)
                  | Return hi =>
                      match _shift_in (Z.shiftl hi (16 * Z.of_nat parts_skipped))
                                      (skipn (n - parts_lo) parts) with
                      | Raise _ => Raise (AddressValueError ip_str)
                      | Return ip_int => Return ip_int
                      end
                  end
            | [] =>
                if negb (n =? HEXTET_COUNT)%nat then Raise (AddressValueError ip_str)
                else if first_empty then Raise (AddressValueError ip_str)
                else if last_empty then Raise (AddressValueError ip_str)
                else match _shift_in 0 parts with
                     | Raise _ => Raise (AddressValueError ip_str)
                     | Return ip_int => Return ip_int
                     end
            end
      end.

(** [_BaseV6._split_scope_id]. *)
Definition _split_scope_id (ip_str : string) : outcome (string * option string) :=
  let '(addr, sep, scope_id) := partition "%" ip_str in
  if negb sep then Return (addr, None)
  else if String.eqb scope_id "" || contains "%" scope_id
       then Raise (AddressValueError ip_str)
  else Return (addr, Some scope_id).

(** [IPv6Address(address)] on a string. *)
Definition IPv6Address_of_str (address : string) : outcome ipaddr :=
  if contains "/" address then Raise (AddressValueError address)
  else
    match _split_scope_id address with
    | Raise e => Raise e
    | Return (addr_str, scope_id) =>
        ip <-? _ip_int_from_string6 addr_str ;;
        Return (IPv6Address ip scope_id)
    end.

(** [ipaddress.ip_address(address)] on a string. *)
Definition ip_address (address : string) : outcome ipaddr :=
  match IPv4Address_of_str address with
  | Return a => Return a
  | Raise _ =>
      match IPv6Address_of_str address with
      | Return a => Return a
      | Raise _ => Raise (LibValueError address)
      end
  end.

(** *** Netmasks and prefix lengths *)

(** [_ip_int_from_prefix]. *)
Definition _ip_int_from_prefix (v prefixlen : Z) : Z :=
  Z.lxor (ALL_ONES v) (Z.shiftr (ALL_ONES v) prefixlen).

(** [n.bit_length()]. *)
Definition bit_length (n : Z) : Z :=
  if n =? 0 then 0 else Z.log2 (Z.abs n) + 1.

Definition _count_righthand_zero_bits (number bits : Z) : Z :=
  if number =? 0 then bits
  else Z.min bits (bit_length (Z.land (Z.lnot number) (number - 1))).

(** [_prefix_from_ip_int]. *)
Definition _prefix_from_ip_int (v ip_int : Z) : outcome Z :=
  let trailing_zeroes := _count_righthand_zero_bits ip_int (max_prefixlen v) in
  let prefixlen := max_prefixlen v - trailing_zeroes in
  let leading_ones := Z.shiftr ip_int trailing_zeroes in
  let all_ones := Z.shiftl 1 prefixlen - 1 in
  if negb (leading_ones =? all_ones) then Raise (LibValueError (str ip_int))
  else Return prefixlen.

(** [_prefix_from_prefix_string]. *)
Definition _prefix_from_prefix_string (v : Z) (prefixlen_str : string) : outcome Z :=
  if negb (isdigit prefixlen_str) then Raise (NetmaskValueError prefixlen_str)
  else
    let prefixlen := int10 prefixlen_str in
    if negb ((0 <=? prefixlen) && (prefixlen <=? max_prefixlen v))
    then Raise (NetmaskValueError prefixlen_str)
    else Return prefixlen.

(** [_prefix_from_ip_string], which only IPv4 reaches: a dotted netmask,
    or failing that a dotted hostmask. *)
Definition _prefix_from_ip_string (ip_str : string) : outcome Z :=
  match _ip_int_from_string4 ip_str with
  | Raise _ => Raise (NetmaskValueError ip_str)
  | Return ip_int =>
      match _prefix_from_ip_int 4 ip_int with
      | Return prefixlen => Return prefixlen
      | Raise _ =>
          match _prefix_from_ip_int 4 (Z.lxor ip_int (ALL_ONES 4)) with
          | Return prefixlen => Return prefixlen
          | Raise _ => Raise (NetmaskValueError ip_str)
          end
      end
  end.

(** The mask handed to a network constructor: an integer prefix length or
    the text after the slash. *)
Inductive mask_arg : Type :=
  | MaskInt (n : Z)
  | MaskStr (s : string).

(** [_make_netmask] of [_BaseV4] and [_BaseV6]: the netmask and the prefix
    length. *)
Definition _make_netmask (v : Z) (arg : mask_arg) : outcome (ipaddr * Z) :=
  prefixlen <-?
    match arg with
    | MaskInt n =>
        if negb ((0 <=? n) && (n <=? max_prefixlen v))
        then Raise (NetmaskValueError (str n)) else Return n
    | MaskStr s =>
        if v =? 4 then
          match _prefix_from_prefix_string v s with
          | Return n => Return n
          | Raise _ => _prefix_from_ip_string s
          end
        else _prefix_from_prefix_string v s
    end ;;
  Return (if v =? 4 then IPv4Address (_ip_int_from_prefix v prefixlen)
          else IPv6Address (_ip_int_from_prefix v prefixlen) None,
          prefixlen).

(** [_split_addr_prefix] on a string. *)
Definition _split_addr_prefix (v : Z) (address : string) : outcome (string * mask_arg) :=
  match split "/" address with
  | [addr] => Return (addr, MaskInt (max_prefixlen v))
  | [addr; mask] => Return (addr, MaskStr mask)
  | _ => Raise (AddressValueError address)
  end.

(** *** Networks *)

(** [IPv4Network] and [IPv6Network] objects; the version is that of the
    network address. *)
Record network : Type := Network {
  network_address : ipaddr;
  netmask : ipaddr;
  prefixlen : Z
}.

(** The strict constructor's last step: host bits must be clear. *)
Definition _strict (text : string) (na : ipaddr) (mask : ipaddr * Z) : outcome network :=
  let packed := int na in
  if negb (Z.land packed (int (fst mask)) =? packed)
  then Raise (LibValueError text)
  else Return (Network na (fst mask) (snd mask)).

(** [IPv4Network(address)] on a string, [strict=True]. *)
Definition IPv4Network (address : string) : outcome network :=
  match _split_addr_prefix 4 address with
  | Raise e => Raise e
  | Return (addr, mask) =>
      na <-? IPv4Address_of_str addr ;;
      nm <-? _make_netmask 4 mask ;;
      _strict address na nm
  end.

(** [IPv6Network(address)] on a string, [strict=True]. *)
Definition IPv6Network (address : string) : outcome network :=
  match _split_addr_prefix 6 address with
  | Raise e => Raise e
  | Return (addr, mask) =>
      na <-? IPv6Address_of_str addr ;;
      nm <-? _make_netmask 6 mask ;;
      _strict address na nm
  end.

(** [IPv4Network((address, prefixlen))] on a pair of integers, the
    constructor [supernet] ends in. *)
Definition IPv4Network_of_tuple (address new_prefixlen : Z) : outcome network :=
  if (address <? 0) || (ALL_ONES 4 <? address)
  then Raise (AddressValueError (str address))
  else
    nm <-? _make_netmask 4 (MaskInt new_prefixlen) ;;
    _strict (str address) (IPv4Address address) nm.

Definition hostmask (n : network) : Z :=
  Z.lxor (int (netmask n)) (ALL_ONES (version (network_address n))).

Definition broadcast_address (n : network) : Z :=
  Z.lor (int (network_address n)) (hostmask n).

(** [range(a, b)]. *)
Definition range (a b : Z) : list Z := seqZ a (b - a).

(** [IPv4Network.hosts()]: the constructor replaces the method for a /31
    (every address) and a /32 (the one address). *)
Definition hosts (n : network) : list ipaddr :=
  let net := int (network_address n) in
  let broadcast := broadcast_address n in
  if prefixlen n =? IPV4LENGTH - 1 then map IPv4Address (range net (broadcast + 1))
  else if prefixlen n =? IPV4LENGTH then [network_address n]
  else map IPv4Address (range (net + 1) broadcast).

(** [other in n] for an address [other]. *)
Definition contains_address (n : network) (other : ipaddr) : bool :=
  if negb (version (network_address n) =? version other) then false
  else Z.land (int other) (int (netmask n)) =? int (network_address n).

(** [n.supernet(new_prefix=new_prefix)] on an IPv4 network. *)
Definition supernet (n : network) (new_prefix : Z) : outcome network :=
  if prefixlen n =? 0 then Return n
  else if prefixlen n <? new_prefix then Raise (LibValueError (str new_prefix))
  else
    let prefixlen_diff := prefixlen n - new_prefix in
    let new_prefixlen := prefixlen n - prefixlen_diff in
    if new_prefixlen <? 0 then Raise (LibValueError (str new_prefix))
    else IPv4Network_of_tuple
           (Z.land (int (network_address n))
                   (Z.shiftl (int (netmask n)) prefixlen_diff))
           new_prefixlen.

(** *** Reverse pointers *)

(** [hex_str[x:x+4] for x in range(0, 32, 4)]. *)
Fixpoint groups4 (k : nat) (s : string) : list string :=
  match k with
  | O => []
  | S k' => String.substring 0 4 s :: groups4 k' (String.substring 4 (String.length s - 4) s)
  end.

(** [a.exploded] for an IPv6 address.  The library prints the address and
    parses the text again; with a scope id the text ends in [%scope] and the
    parser raises, and without one the parser gives the integer back, which
    is taken here directly. *)
Definition exploded6 (ip : Z) (scope_id : option string) : outcome string :=
  match scope_id with
  | Some (String c sc) => Raise (AddressValueError (String c sc))
  | _ => Return (join ":" (groups4 8 (hex_digits 32 ip)))
  end.

(** [str(a)] for an IPv4 address. *)
Definition str4 (a : ipaddr) : string := _string_from_ip_int4 (int a).

(** [str(n)] for an IPv4 network. *)
Definition str_network4 (n : network) : string :=
  str4 (network_address n) +:+ "/" +:+ str (prefixlen n).

(** [_BaseV4._reverse_pointer] on the text of an address or a network. *)
Definition _reverse_pointer4 (text : string) : string :=
  join "." (rev (split "." text)) +:+ ".in-addr.arpa".

(** [a.reverse_pointer] for an address. *)
Definition reverse_pointer (a : ipaddr) : outcome string :=
  match a with
  | IPv4Address _ => Return (_reverse_pointer4 (str4 a))
  | IPv6Address ip scope_id =>
      e <-? exploded6 ip scope_id ;;
      let reverse_chars := replace ":" "" (reversed e) in
      Return (join "." (map (fun c => String c EmptyString)
                            (list_ascii_of_string reverse_chars))
              +:+ ".ip6.arpa")
  end.

(** [n.reverse_pointer] for an IPv4 network. *)
Definition network_reverse_pointer (n : network) : string :=
  _reverse_pointer4 (str_network4 n).

End ipaddress.

Import ipaddress.

(** ** The script *)

(** What the script reads and never changes once [_load_config] has run:
    [sys.argv[0]], [args.out_dir], the inventory [hosts] and the keys of
    [global_vars] it uses, each taken as present and already rendered as
    text.  Dictionaries read from YAML keep their order. *)
Record settings : Type := Settings {
  argv0 : string;
  out_dir : string;
  dns_ttl : string;
  dns_nameserver_prefix : string;
  dns_domain : string;
  dns_zones_dir : string;
  hosts : list (string * list (string * string));
  dns_records : list (string * list (string * list (string * string)));
  ownnets4 : list string;
  ownnets6 : list string
}.

(** What the script changes: its two module-level dictionaries, and the
    files on disk.  A file is the sequence of strings written to it; a file
    object is known by its path. *)
Record state : Type := State {
  ptr_records : list (ipaddr * string);
  namedconf_entries : list (string * string);
  files : gmap string (list string)
}.

Definition initial_state : state :=
  {| ptr_records := []; namedconf_entries := []; files := ∅ |}.

Definition nl : string := String (ascii_of_nat 10) EmptyString.
Definition dquote : string := String (ascii_of_nat 34) EmptyString.

(** [os.path.join(a, b)] on POSIX. *)
Definition path_join (a b : string) : string :=
  if startswith b "/" then b
  else if String.eqb a "" || endswith a "/" then a +:+ b
  else a +:+ "/" +:+ b.

(** [namedconf_entries[zonename] = fname]. *)
Definition set_namedconf_entry (zonename fname : string) : M state unit :=
  fun s => (Return tt,
            {| ptr_records := ptr_records s;
               namedconf_entries := dict_set zonename fname (namedconf_entries s);
               files := files s |}).

(** [ptr_records[ipaddr] = target]. *)
Definition set_ptr_record (ip : ipaddr) (target : string) : M state unit :=
  fun s => (Return tt,
            {| ptr_records := dict_set ip target (ptr_records s);
               namedconf_entries := namedconf_entries s;
               files := files s |}).

(** [open(path, 'w')]: the file is created or truncated. *)
Definition open_w (path : string) : M state string :=
  fun s => (Return path,
            {| ptr_records := ptr_records s;
               namedconf_entries := namedconf_entries s;
               files := <[path := []]> (files s) |}).

(** [fd.write(text)]. *)
Definition fd_write (fd : string) (text : string) : M state unit :=
  fun s => (Return tt,
            {| ptr_records := ptr_records s;
               namedconf_entries := namedconf_entries s;
               files := <[fd := default [] (files s !! fd) ++ [text]]> (files s) |}).

Definition get_ptr_records : M state (list (ipaddr * string)) :=
  fun s => (Return (ptr_records s), s).

Definition get_namedconf_entries : M state (list (string * string)) :=
  fun s => (Return (namedconf_entries s), s).

(** The line [_write_entry] writes for a record. *)
Definition entry_line (name rtype data : string) : string :=
  name +:+ " IN " +:+ rtype +:+ " " +:+ data +:+ nl.

Section Script.
Context (g : settings).

(** The text [get_zone_file] writes at the head of a zone file. *)
Definition zone_header (zonename : string) : string :=
  "; Autogenerated by " +:+ argv0 g +:+ ", do not edit!" +:+ nl +:+
  "$ORIGIN " +:+ zonename +:+ nl +:+
  "$TTL " +:+ dns_ttl g +:+ nl +:+
  "@   IN  SOA     " +:+ dns_nameserver_prefix g +:+ "." +:+ dns_domain g +:+
  " placeholder-see-registry." +:+ dns_domain g +:+ " (" +:+ nl +:+
  "        1           ; serial" +:+ nl +:+
  "        7200        ; refresh period" +:+ nl +:+
  "        2400        ; retry period" +:+ nl +:+
  "        86400       ; expiration" +:+ nl +:+
  "        3600        ; minimum TTL" +:+ nl +:+
  ")" +:+ nl.

Definition zone_fname (zonename : string) : string :=
  replace "/" "_" zonename +:+ ".zone".

Definition get_zone_file (zonename : string) : M state string :=
  let fname := zone_fname zonename in
  set_namedconf_entry zonename fname ;;;
  let local_path := path_join (out_dir g) fname in
  fd <- open_w local_path ;;
  fd_write fd (zone_header zonename) ;;;
  ret fd.

Definition _write_entry (fd name rtype data : string)
    (reverse_domain : option string) : M state unit :=
  let rtype := upper rtype in
  fd_write fd (entry_line name rtype data) ;;;
  match reverse_domain with
  | None => ret tt
  | Some reverse_domain =>
      if negb (String.eqb rtype "A" || String.eqb rtype "AAAA") then
        raise (ValueError
                 ("Cannot add PTR record: expected rtype A or AAAA but got " +:+ rtype))
      else
        ipaddr <- lift (ip_address data) ;;
        set_ptr_record ipaddr (name +:+ "." +:+ reverse_domain)
  end.

(** The body of the loop over [records.items()]. *)
Definition write_forward_record (fd domain : string)
    (item : string * list (string * string)) : M state unit :=
  let '(record_name, data) := item in
  type <- lift (getitem "type" data) ;;
  if String.eqb type "ansible_host_alias" then
    target <- lift (getitem "target" data) ;;
    hostdata <- lift (getitem target (hosts g)) ;;
    ownip <- lift (getitem "ownip" hostdata) ;;
    _write_entry fd record_name "A" ownip None ;;;
    ownip6 <- lift (getitem "ownip6" hostdata) ;;
    _write_entry fd record_name "AAAA" ownip6 None
  else if String.eqb type "ansible_host_record" then
    ip4 <- lift (getitem "ip4" data) ;;
    _write_entry fd record_name "A" ip4 (Some domain) ;;;
    ip6 <- lift (getitem "ip6" data) ;;
    _write_entry fd record_name "AAAA" ip6 (Some domain)
  else
    target <- lift (getitem "target" data) ;;
    _write_entry fd record_name type target None.

(** The body of the loop over [hosts]. *)
Definition write_host_records (fd domain : string)
    (item : string * list (string * string)) : M state unit :=
  let router := item.1 in
  hostdata <- lift (getitem router (hosts g)) ;;
  shortname <- lift (getitem "shortname" hostdata) ;;
  ownip <- lift (getitem "ownip" hostdata) ;;
  _write_entry fd shortname "A" ownip (Some domain) ;;;
  shortname <- lift (getitem "shortname" hostdata) ;;
  ownip6 <- lift (getitem "ownip6" hostdata) ;;
  _write_entry fd shortname "AAAA" ownip6 (Some domain).

Definition write_forward_zone (domain : string)
    (records : list (string * list (string * string))) : M state unit :=
  fd <- get_zone_file domain ;;
  for_each records (write_forward_record fd domain) ;;;
  if String.eqb domain (dns_domain g)
  then for_each (hosts g) (write_host_records fd domain)
  else ret tt.

(** [record] with a final dot, "just to be sure". *)
Definition dotted (record : string) : string :=
  if negb (endswith record ".") then record +:+ "." else record.

(** The body of the loop over [ptr_records.items()]. *)
Definition write_ptr_record (fd : string) (ipnet : network)
    (item : ipaddr * string) : M state unit :=
  let '(ipaddr, record) := item in
  if contains_address ipnet ipaddr then
    name <- lift (reverse_pointer ipaddr) ;;
    _write_entry fd name "PTR" (dotted record) None
  else ret tt.

Definition _write_ptr_zone (zonename : string) (ipnet : network) : M state unit :=
  fd <- get_zone_file zonename ;;
  items <- get_ptr_records ;;
  for_each items (write_ptr_record fd ipnet).

(** [a.reverse_pointer.lstrip('0.')]. *)
Definition stripped_reverse_pointer (a : ipaddr) : outcome string :=
  rp <-? reverse_pointer a ;; Return (lstrip "0." rp).

(** The body of the loop over [ipnet.hosts()] in the RFC 2317 branch. *)
Definition write_rfc2317_records (fd classful_fd classful_zonename : string)
    (ipnet : network) (ipaddr : ipaddr) : M state unit :=
  ptrs <- get_ptr_records ;;
  match dict_get ipaddr ptrs with
  | Some (String c record') =>
      let record := String c record' in
      rp <- lift (reverse_pointer ipaddr) ;;
      let relevant_octets :=
        slice_to rp (Z.of_nat (String.length rp)
                     - Z.of_nat (String.length classful_zonename) - 1) in
      _write_entry fd relevant_octets "PTR" (dotted record) None ;;;
      let cname_record :=
        relevant_octets +:+ "." +:+ network_reverse_pointer ipnet +:+ "." in
      _write_entry classful_fd relevant_octets "CNAME" cname_record None
  | _ => ret tt
  end.

Definition write_ptr4_zone (netblock : string) : M state unit :=
  ipnet <- lift (IPv4Network netblock) ;;
  if prefixlen ipnet mod 8 =? 0 then
    zonename <- lift (stripped_reverse_pointer (network_address ipnet)) ;;
    _write_ptr_zone zonename ipnet
  else
    let zonename := network_reverse_pointer ipnet in
    fd <- get_zone_file zonename ;;
    let nearest_classful_prefixlen := prefixlen ipnet / 8 * 8 in
    if negb (nearest_classful_prefixlen <? prefixlen ipnet) then raise AssertionError
    else
      nearest_classful_net <- lift (supernet ipnet nearest_classful_prefixlen) ;;
      classful_zonename <-
        lift (stripped_reverse_pointer (network_address nearest_classful_net)) ;;
      classful_fd <- get_zone_file classful_zonename ;;
      for_each (ipaddress.hosts ipnet)
               (write_rfc2317_records fd classful_fd classful_zonename ipnet).

Definition write_ptr6_zone (netblock : string) : M state unit :=
  ipnet <- lift (IPv6Network netblock) ;;
  zonename <- lift (stripped_reverse_pointer (network_address ipnet)) ;;
  _write_ptr_zone zonename ipnet.

Definition named_conf_path : string := "global-config/named.conf".

Definition options_stanza : string :=
  nl +:+ "options {" +:+ nl +:+
  "    directory " +:+ dquote +:+ dns_zones_dir g +:+ dquote +:+ ";" +:+ nl +:+
  "};" +:+ nl.

Definition zone_stanza (entry : string * string) : string :=
  nl +:+ "zone " +:+ dquote +:+ entry.1 +:+ dquote +:+ " {" +:+ nl +:+
  "    file " +:+ dquote +:+ entry.2 +:+ dquote +:+ ";" +:+ nl +:+
  "};" +:+ nl.

Definition write_named_conf : M state unit :=
  f <- open_w named_conf_path ;;
  fd_write f options_stanza ;;;
  entries <- get_namedconf_entries ;;
  for_each entries (fun entry => fd_write f (zone_stanza entry)).

(** [main] once the arguments are parsed and the configuration loaded. *)
Definition main : M state unit :=
  for_each (dns_records g) (fun item => write_forward_zone item.1 item.2) ;;;
  for_each (ownnets4 g) write_ptr4_zone ;;;
  for_each (ownnets6 g) write_ptr6_zone ;;;
  write_named_conf.

End Script.

(** * Properties *)

(** ** Dictionaries *)

Section DictFacts.
Context {K V : Type} `{EqDecision K}.
Implicit Types (d : list (K * V)) (k : K) (v : V).

Lemma dict_get_set_eq d k v : dict_get k (dict_set k v d) = Some v.
Proof.
  induction d as [|[k' v'] d IH]; simpl.
  - by rewrite decide_True.
  - destruct (decide (k = k')) as [->|Hne]; simpl.
    + by rewrite decide_True.
    + by rewrite decide_False.
Qed.

Lemma dict_get_set_ne d k k' v :
  k ≠ k' → dict_get k' (dict_set k v d) = dict_get k' d.
Proof.
  intros Hne. induction d as [|[k0 v0] d IH]; simpl.
  - by rewrite decide_False.
  - destruct (decide (k = k0)) as [->|Hk]; simpl.
    + by rewrite !decide_False.
    + destruct (decide (k' = k0)); [done | apply IH].
Qed.

Lemma dict_get_None_keys d k : dict_get k d = None ↔ k ∉ dict_keys d.
Proof.
  unfold dict_keys. induction d as [|[k' v'] d IH]; simpl.
  - split; [intros _; apply not_elem_of_nil | done].
  - rewrite not_elem_of_cons. destruct (decide (k = k')) as [->|Hne].
    + split; [done | by intros [? _]].
    + rewrite IH. tauto.
Qed.

Lemma dict_set_present d k v :
  k ∈ dict_keys d →
  dict_keys (dict_set k v d) = dict_keys d ∧
  length (dict_set k v d) = length d.
Proof.
  unfold dict_keys. induction d as [|[k' v'] d IH]; simpl.
  - intros Hin. by apply elem_of_nil in Hin.
  - intros Hin. destruct (decide (k = k')) as [->|Hne]; simpl; [done|].
    apply elem_of_cons in Hin as [?|Hin]; [done|].
    destruct (IH Hin) as [-> ->]. done.
Qed.

Lemma dict_set_absent d k v :
  k ∉ dict_keys d → dict_set k v d = d ++ [(k, v)].
Proof.
  unfold dict_keys. induction d as [|[k' v'] d IH]; simpl; [done|].
  rewrite not_elem_of_cons. intros [Hne Hnin].
  rewrite decide_False by done. by rewrite IH.
Qed.

Lemma dict_set_NoDup d k v :
  NoDup (dict_keys d) → NoDup (dict_keys (dict_set k v d)).
Proof.
  intros Hd. destruct (decide (k ∈ dict_keys d)) as [Hin|Hnin].
  - by destruct (dict_set_present d k v Hin) as [-> _].
  - rewrite dict_set_absent by done. unfold dict_keys in *.
    rewrite map_app. simpl. apply NoDup_app. split; [done|].
    split; [|apply NoDup_singleton].
    intros x Hx Hx'. apply list_elem_of_singleton in Hx' as ->. done.
Qed.

End DictFacts.

(** ** Writing one record *)

Definition is_address_rtype (rtype : string) : bool :=
  String.eqb rtype "A" || String.eqb rtype "AAAA".

(** The file [_write_entry] leaves behind, whatever happens afterwards. *)
Definition with_line (fd line : string) (fs : gmap string (list string)) :
    gmap string (list string) :=
  <[fd := default [] (fs !! fd) ++ [line]]> fs.

Lemma _write_entry_plain fd name rtype data s :
  _write_entry fd name rtype data None s =
  (Return tt,
   {| ptr_records := ptr_records s;
      namedconf_entries := namedconf_entries s;
      files := with_line fd (entry_line name (upper rtype) data) (files s) |}).
Proof. reflexivity. Qed.

Lemma _write_entry_linked fd name rtype data rd s :
  _write_entry fd name rtype data (Some rd) s =
  let files' := with_line fd (entry_line name (upper rtype) data) (files s) in
  if is_address_rtype (upper rtype) then
    match ip_address data with
    | Return ip =>
        (Return tt,
         {| ptr_records := dict_set ip (name +:+ "." +:+ rd) (ptr_records s);
            namedconf_entries := namedconf_entries s;
            files := files' |})
    | Raise e =>
        (Raise e,
         {| ptr_records := ptr_records s;
            namedconf_entries := namedconf_entries s;
            files := files' |})
    end
  else
    (Raise (ValueError
              ("Cannot add PTR record: expected rtype A or AAAA but got "
               +:+ upper rtype)),
     {| ptr_records := ptr_records s;
        namedconf_entries := namedconf_entries s;
        files := files' |}).
Proof.
  unfold _write_entry, is_address_rtype, bind, fd_write, with_line. simpl.
  destruct (String.eqb (upper rtype) "A" || String.eqb (upper rtype) "AAAA");
    simpl; [|reflexivity].
  unfold lift, set_ptr_record. destruct (ip_address data); reflexivity.
Qed.

Lemma _write_entry_files fd name rtype data rd s :
  files (_write_entry fd name rtype data rd s).2 =
  with_line fd (entry_line name (upper rtype) data) (files s).
Proof.
  destruct rd as [rd|]; [|by rewrite _write_entry_plain].
  rewrite _write_entry_linked. simpl.
  destruct (is_address_rtype _); [|done]. by destruct (ip_address data).
Qed.

Lemma _write_entry_namedconf fd name rtype data rd s :
  namedconf_entries (_write_entry fd name rtype data rd s).2 = namedconf_entries s.
Proof.
  destruct rd as [rd|]; [|by rewrite _write_entry_plain].
  rewrite _write_entry_linked. simpl.
  destruct (is_address_rtype _); [|done]. by destruct (ip_address data).
Qed.

Lemma _write_entry_NoDup fd name rtype data rd s :
  NoDup (dict_keys (ptr_records s)) →
  NoDup (dict_keys (ptr_records (_write_entry fd name rtype data rd s).2)).
Proof.
  intros Hs. destruct rd as [rd|]; [|by rewrite _write_entry_plain].
  rewrite _write_entry_linked. simpl.
  destruct (is_address_rtype _); [|done].
  destruct (ip_address data); simpl; [by apply dict_set_NoDup | done].
Qed.

(** C10.  [_write_entry] writes the record line before it looks at the
    reverse linkage: whenever the call raises, because the record type is
    not an address type or because the data is not an address, the file
    already ends with that line, and the PTR index and the registry are as
    they were. *)
Theorem write_entry_line_precedes_failure fd name rtype data rd s e s' :
  _write_entry fd name rtype data rd s = (Raise e, s') →
  files s' !! fd =
    Some (default [] (files s !! fd) ++ [entry_line name (upper rtype) data]) ∧
  (∀ fd', fd' ≠ fd → files s' !! fd' = files s !! fd') ∧
  ptr_records s' = ptr_records s ∧
  namedconf_entries s' = namedconf_entries s ∧
  (e = ValueError ("Cannot add PTR record: expected rtype A or AAAA but got "
                   +:+ upper rtype)
   ∨ ip_address data = Raise e).
Proof.
  intros Hrun.
  pose proof (_write_entry_files fd name rtype data rd s) as Hf.
  pose proof (_write_entry_namedconf fd name rtype data rd s) as Hn.
  rewrite Hrun in Hf, Hn. simpl in Hf, Hn. rewrite Hf. unfold with_line.
  split; [apply lookup_insert_eq|].
  split; [intros fd' Hne; by rewrite lookup_insert_ne|].
  split; [|split; [done|]].
  - destruct rd as [rd|]; [|by rewrite _write_entry_plain in Hrun].
    rewrite _write_entry_linked in Hrun. simpl in Hrun.
    destruct (is_address_rtype _); [|by inversion Hrun].
    destruct (ip_address data); by inversion Hrun.
  - destruct rd as [rd|]; [|by rewrite _write_entry_plain in Hrun].
    rewrite _write_entry_linked in Hrun. simpl in Hrun.
    destruct (is_address_rtype _); [|left; by inversion Hrun].
    right. destruct (ip_address data); by inversion Hrun.
Qed.

Lemma write_entry_line_precedes_failure_witness :
  files (_write_entry "z.zone" "www" "cname" "gw" (Some "example.dn42")
                      initial_state).2 !! "z.zone"
  = Some ["www IN CNAME gw" +:+ nl].
Proof.
  destruct (write_entry_line_precedes_failure
              "z.zone" "www" "cname" "gw" (Some "example.dn42") initial_state
              (ValueError "Cannot add PTR record: expected rtype A or AAAA but got CNAME")
              (_write_entry "z.zone" "www" "cname" "gw" (Some "example.dn42")
                            initial_state).2) as [H _].
  - reflexivity.
  - exact H.
Defined.

(** C6, as stated, fails: with reverse linkage and type [A] the call still
    raises when the data is not an address literal, and registers nothing. *)
Lemma reverse_linkage_needs_an_address :
  ∃ s', _write_entry "example.dn42.zone" "gw" "A" "gateway" (Some "example.dn42")
                     initial_state
        = (Raise (LibValueError "gateway"), s')
        ∧ ptr_records s' = [].
Proof. eexists. split; reflexivity. Qed.

(** C6, amended.  With reverse linkage requested, a record type other than
    [A] or [AAAA] (after upper-casing) makes the call raise the script's
    [ValueError] and leaves the PTR index alone; with [A] or [AAAA] and
    data that [ip_address] accepts the call returns and the index maps that
    address to [name.reverse_domain]; with [A] or [AAAA] and data that
    [ip_address] rejects the call raises the library's error and leaves the
    index alone. *)
Theorem write_entry_reverse_linkage fd name rtype data rd s :
  let r := _write_entry fd name rtype data (Some rd) s in
  (upper rtype ≠ "A" → upper rtype ≠ "AAAA" →
   r.1 = Raise (ValueError
                  ("Cannot add PTR record: expected rtype A or AAAA but got "
                   +:+ upper rtype))
   ∧ ptr_records r.2 = ptr_records s) ∧
  (upper rtype = "A" ∨ upper rtype = "AAAA" →
   ∀ ip, ip_address data = Return ip →
   r.1 = Return tt
   ∧ dict_get ip (ptr_records r.2) = Some (name +:+ "." +:+ rd)) ∧
  (upper rtype = "A" ∨ upper rtype = "AAAA" →
   ∀ e, ip_address data = Raise e →
   r.1 = Raise e ∧ ptr_records r.2 = ptr_records s).
Proof.
  intros r. subst r. rewrite _write_entry_linked. simpl.
  unfold is_address_rtype.
  destruct (String.eqb_spec (upper rtype) "A") as [HA|HA];
    destruct (String.eqb_spec (upper rtype) "AAAA") as [H4|H4]; simpl.
  - rewrite HA in H4. discriminate.
  - split; [done|]. split; intros _ x Hx; rewrite Hx; simpl;
      [by rewrite dict_get_set_eq | done].
  - split; [done|]. split; intros _ x Hx; rewrite Hx; simpl;
      [by rewrite dict_get_set_eq | done].
  - split; [done|]. split; intros [?|?]; done.
Qed.

Lemma write_entry_reverse_linkage_witness :
  (_write_entry "f" "www" "cname" "gw" (Some "example.dn42") initial_state).1
  = Raise (ValueError "Cannot add PTR record: expected rtype A or AAAA but got CNAME")
  ∧ dict_get (IPv4Address 2887050497)
      (ptr_records (_write_entry "f" "gw" "a" "172.20.229.1" (Some "example.dn42")
                                 initial_state).2)
    = Some "gw.example.dn42"
  ∧ (_write_entry "f" "gw" "aaaa" "gateway" (Some "example.dn42") initial_state).1
    = Raise (LibValueError "gateway").
Proof.
  split; [|split].
  - destruct (write_entry_reverse_linkage "f" "www" "cname" "gw" "example.dn42"
                initial_state) as (H & _ & _).
    apply H; discriminate.
  - destruct (write_entry_reverse_linkage "f" "gw" "a" "172.20.229.1"
                "example.dn42" initial_state) as (_ & H & _).
    apply H; [left|]; reflexivity.
  - destruct (write_entry_reverse_linkage "f" "gw" "aaaa" "gateway"
                "example.dn42" initial_state) as (_ & _ & H).
    apply (H (or_intror eq_refl) (LibValueError "gateway")). reflexivity.
Defined.

(** ** The PTR index *)

(** One call of [_write_entry]. *)
Record entry_call : Type := EntryCall {
  call_fd : string;
  call_name : string;
  call_rtype : string;
  call_data : string;
  call_reverse_domain : option string
}.

Definition run_call (c : entry_call) : M state unit :=
  _write_entry (call_fd c) (call_name c) (call_rtype c) (call_data c)
               (call_reverse_domain c).

Lemma for_each_invariant {A} (P : state → Prop) (body : A → M state unit) xs s :
  (∀ x s, P s → P (body x s).2) → P s → P (for_each xs body s).2.
Proof.
  intros Hbody. revert s. induction xs as [|x xs IH]; intros s Hs; simpl; [done|].
  unfold bind. specialize (Hbody x s Hs).
  destruct (body x s) as [[[]|e] s1]; simpl in *; [by apply IH | done].
Qed.

(** C8.  After any sequence of [_write_entry] calls from the empty state
    the PTR index has at most one entry per address; and a call with
    reverse linkage on an address it already holds returns normally, puts
    the new target in place of the old one and adds no entry. *)
Theorem ptr_index_one_entry_per_address
    (calls : list entry_call) fd name rtype data rd ip old :
  let s := (for_each calls run_call initial_state).2 in
  let r := _write_entry fd name rtype data (Some rd) s in
  is_address_rtype (upper rtype) = true →
  ip_address data = Return ip →
  dict_get ip (ptr_records s) = Some old →
  NoDup (dict_keys (ptr_records s)) ∧
  r.1 = Return tt ∧
  dict_get ip (ptr_records r.2) = Some (name +:+ "." +:+ rd) ∧
  dict_keys (ptr_records r.2) = dict_keys (ptr_records s) ∧
  NoDup (dict_keys (ptr_records r.2)).
Proof.
  intros s r Hty Hip Hold.
  assert (Hnd : NoDup (dict_keys (ptr_records s))).
  { subst s. apply (for_each_invariant (λ s, NoDup (dict_keys (ptr_records s)))).
    - intros c s0 Hs0. by apply _write_entry_NoDup.
    - apply NoDup_nil_2. }
  assert (Hin : ip ∈ dict_keys (ptr_records s)).
  { destruct (decide (ip ∈ dict_keys (ptr_records s))) as [|Hnin]; [done|].
    apply dict_get_None_keys in Hnin. congruence. }
  subst r. rewrite _write_entry_linked. simpl. rewrite Hty, Hip. simpl.
  destruct (dict_set_present (ptr_records s) ip (name +:+ "." +:+ rd) Hin)
    as [Hkeys _].
  rewrite dict_get_set_eq, Hkeys. done.
Qed.

Lemma ptr_index_one_entry_per_address_witness :
  let calls := [EntryCall "f" "gw" "A" "172.20.229.1" (Some "example.dn42")] in
  let s := (for_each calls run_call initial_state).2 in
  let r := _write_entry "f" "router" "A" "172.20.229.1" (Some "example.dn42") s in
  ptr_records s = [(IPv4Address 2887050497, "gw.example.dn42")] ∧
  r.1 = Return tt ∧
  ptr_records r.2 = [(IPv4Address 2887050497, "router.example.dn42")].
Proof.
  intros calls s r.
  destruct (ptr_index_one_entry_per_address calls "f" "router" "A" "172.20.229.1"
              "example.dn42" (IPv4Address 2887050497) "gw.example.dn42")
    as (_ & Hret & _); [reflexivity..|].
  split; [reflexivity|]. split; [exact Hret | reflexivity].
Defined.

(** ** Creating a zone *)

#[global] Arguments _write_entry : simpl never.
#[global] Arguments get_zone_file : simpl never.

Definition zone_path (g : settings) (zonename : string) : string :=
  path_join (out_dir g) (zone_fname zonename).

Lemma get_zone_file_run g zonename s :
  get_zone_file g zonename s =
  (Return (zone_path g zonename),
   {| ptr_records := ptr_records s;
      namedconf_entries :=
        dict_set zonename (zone_fname zonename) (namedconf_entries s);
      files := <[zone_path g zonename := [zone_header g zonename]]> (files s) |}).
Proof.
  unfold get_zone_file, bind, set_namedconf_entry, open_w, fd_write, ret. simpl.
  unfold zone_path. rewrite lookup_insert_eq. simpl.
  by rewrite insert_insert_eq.
Qed.

(** ** The forward pass *)

Definition gw_record : string * list (string * string) :=
  ("gw", [("type", "ansible_host_record");
          ("ip4", "172.20.229.1"); ("ip6", "fd00::1")]).

Definition gw_ip4 : ipaddr := IPv4Address 2887050497.
Definition gw_ip6 : ipaddr :=
  IPv6Address 336294682933583715844663186250927177729 None.

Lemma bind_Return {A B} (m : M state A) (k : A → M state B) s a s' :
  m s = (Return a, s') → bind m k s = k a s'.
Proof. unfold bind. by intros ->. Qed.

Lemma bind_Raise {A B} (m : M state A) (k : A → M state B) s e s' :
  m s = (Raise e, s') → bind m k s = (Raise e, s').
Proof. unfold bind. by intros ->. Qed.

Lemma write_forward_record_host_record g fd domain name data ip4 ip6 :
  getitem "type" data = Return "ansible_host_record" →
  getitem "ip4" data = Return ip4 →
  getitem "ip6" data = Return ip6 →
  write_forward_record g fd domain (name, data) =
  bind (_write_entry fd name "A" ip4 (Some domain))
       (λ _, _write_entry fd name "AAAA" ip6 (Some domain)).
Proof.
  intros Hty H4 H6. unfold write_forward_record, bind, lift.
  rewrite Hty, H4, H6. reflexivity.
Qed.

(** C7.  For the domain [example.dn42] with the one host record [gw]
    (ip4 172.20.229.1, ip6 fd00::1), [write_forward_zone] returns, the zone
    file holds the header and then the lines [gw IN A 172.20.229.1] and
    [gw IN AAAA fd00::1], and the PTR index maps both addresses to
    [gw.example.dn42].  The inventory adds nothing here: the domain is not
    the primary one, or there are no routers. *)
Theorem forward_zone_gw_scenario g s :
  dns_domain g ≠ "example.dn42" ∨ hosts g = [] →
  let r := write_forward_zone g "example.dn42" [gw_record] s in
  r.1 = Return tt ∧
  files r.2 !! zone_path g "example.dn42" =
    Some [zone_header g "example.dn42";
          "gw IN A 172.20.229.1" +:+ nl;
          "gw IN AAAA fd00::1" +:+ nl] ∧
  dict_get gw_ip4 (ptr_records r.2) = Some "gw.example.dn42" ∧
  dict_get gw_ip6 (ptr_records r.2) = Some "gw.example.dn42".
Proof.
  intros Hhosts.
  set (p := zone_path g "example.dn42").
  assert (Hrun : write_forward_zone g "example.dn42" [gw_record] s =
    (Return tt,
     {| ptr_records :=
          dict_set gw_ip6 "gw.example.dn42"
            (dict_set gw_ip4 "gw.example.dn42" (ptr_records s));
        namedconf_entries :=
          dict_set "example.dn42" (zone_fname "example.dn42") (namedconf_entries s);
        files :=
          with_line p ("gw IN AAAA fd00::1" +:+ nl)
            (with_line p ("gw IN A 172.20.229.1" +:+ nl)
               (<[p := [zone_header g "example.dn42"]]> (files s))) |})).
  { unfold write_forward_zone.
    erewrite bind_Return by apply get_zone_file_run.
    erewrite bind_Return.
    - destruct Hhosts as [Hne| ->].
      + destruct (String.eqb_spec "example.dn42" (dns_domain g));
          [congruence | reflexivity].
      + destruct (String.eqb _ _); reflexivity.
    - cbn [for_each]. erewrite bind_Return; [reflexivity|].
      unfold gw_record.
      rewrite (write_forward_record_host_record g _ _ "gw" _
                 "172.20.229.1" "fd00::1") by reflexivity.
      erewrite bind_Return by (rewrite _write_entry_linked; reflexivity).
      rewrite _write_entry_linked. reflexivity. }
  rewrite Hrun. cbn [fst snd files ptr_records]. unfold with_line.
  rewrite !lookup_insert_eq. cbn [default app].
  split; [done|]. split; [done|].
  split; [|apply dict_get_set_eq].
  rewrite dict_get_set_ne by discriminate. apply dict_get_set_eq.
Qed.

Definition example_settings : settings :=
  {| argv0 := "scripts/make-dns-records.py";
     out_dir := "global-config/dns-zones/";
     dns_ttl := "3600";
     dns_nameserver_prefix := "ns1";
     dns_domain := "example.dn42";
     dns_zones_dir := "/etc/bind/zones";
     hosts := [];
     dns_records := [("example.dn42", [gw_record])];
     ownnets4 := ["172.20.229.0/24"];
     ownnets6 := [] |}.

Lemma forward_zone_gw_scenario_witness :
  let r := write_forward_zone example_settings "example.dn42" [gw_record]
                              initial_state in
  r.1 = Return tt ∧
  ptr_records r.2 = [(gw_ip4, "gw.example.dn42"); (gw_ip6, "gw.example.dn42")].
Proof.
  destruct (forward_zone_gw_scenario example_settings initial_state
              (or_intror eq_refl)) as (Hret & _).
  split; [exact Hret | reflexivity].
Defined.

(** ** Two runs of the whole script *)

(** C4.  The run of the scenario: the forward zone [example.dn42] with the
    host record [gw], then the block 172.20.229.0/24.  The reverse zone is
    named [229.20.172.in-addr.arpa] and holds one record, but its owner
    name is the whole reverse pointer [1.229.20.172.in-addr.arpa], not the
    name [1] relative to the zone: [_write_ptr_zone] passes
    [ipaddr.reverse_pointer] as it is, where the RFC 2317 branch of
    [write_ptr4_zone] cuts the zone's suffix off. *)
Theorem aligned_block_scenario_run :
  let r := main example_settings initial_state in
  r.1 = Return tt ∧
  namedconf_entries r.2 =
    [("example.dn42", "example.dn42.zone");
     ("229.20.172.in-addr.arpa", "229.20.172.in-addr.arpa.zone")] ∧
  files r.2 !! zone_path example_settings "229.20.172.in-addr.arpa" =
    Some [zone_header example_settings "229.20.172.in-addr.arpa";
          "1.229.20.172.in-addr.arpa IN PTR gw.example.dn42." +:+ nl] ∧
  "1.229.20.172.in-addr.arpa IN PTR gw.example.dn42." +:+ nl
    ≠ "1 IN PTR gw.example.dn42." +:+ nl.
Proof. vm_compute. repeat split; discriminate. Qed.

Definition net_record : string * list (string * string) :=
  ("net", [("type", "ansible_host_record");
           ("ip4", "172.20.229.112"); ("ip6", "fd00::112")]).

Definition gw113_record : string * list (string * string) :=
  ("gw", [("type", "ansible_host_record");
          ("ip4", "172.20.229.113"); ("ip6", "fd00::113")]).

Definition bcast_record : string * list (string * string) :=
  ("last", [("type", "ansible_host_record");
            ("ip4", "172.20.229.127"); ("ip6", "fd00::127")]).

Definition rfc2317_settings : settings :=
  {| argv0 := "scripts/make-dns-records.py";
     out_dir := "global-config/dns-zones/";
     dns_ttl := "3600";
     dns_nameserver_prefix := "ns1";
     dns_domain := "example.dn42";
     dns_zones_dir := "/etc/bind/zones";
     hosts := [];
     dns_records := [("example.dn42", [net_record; gw113_record; bcast_record])];
     ownnets4 := ["172.20.229.112/28"];
     ownnets6 := [] |}.

(** C2.  A run with the one block 172.20.229.112/28 and three indexed
    addresses inside it: .112 (the first address of the block), .113 and
    .127 (the last).  All three are in the PTR index and in the block, yet
    only .113 gets its PTR and CNAME: the loop runs over [ipnet.hosts()],
    which leaves the first and the last address out, while the comment in
    that loop asks for [112 IN CNAME 112.112/28.229.20.172.in-addr.arpa]. *)
Theorem rfc2317_block_skips_first_and_last_address :
  let r := main rfc2317_settings initial_state in
  r.1 = Return tt ∧
  map fst (ptr_records r.2) =
    [IPv4Address 2887050608; IPv6Address 336294682933583715844663186250927178002 None;
     IPv4Address 2887050609; IPv6Address 336294682933583715844663186250927178003 None;
     IPv4Address 2887050623; IPv6Address 336294682933583715844663186250927178023 None] ∧
  match IPv4Network "172.20.229.112/28" with
  | Return n => contains_address n (IPv4Address 2887050608) = true ∧
                contains_address n (IPv4Address 2887050623) = true
  | Raise _ => False
  end ∧
  files r.2 !! zone_path rfc2317_settings "112/28.229.20.172.in-addr.arpa" =
    Some [zone_header rfc2317_settings "112/28.229.20.172.in-addr.arpa";
          "113 IN PTR gw.example.dn42." +:+ nl] ∧
  files r.2 !! zone_path rfc2317_settings "229.20.172.in-addr.arpa" =
    Some [zone_header rfc2317_settings "229.20.172.in-addr.arpa";
          "113 IN CNAME 113.112/28.229.20.172.in-addr.arpa." +:+ nl].
Proof.
  vm_compute. repeat split.
Qed.

(** ** The zone registry *)

(** Creating zones one after the other, as a run does. *)
Definition create_zones (g : settings) (zonenames : list string) : M state unit :=
  for_each zonenames (λ zonename, _ <- get_zone_file g zonename ;; ret tt).

Definition registry_after (g : settings) (zonenames : list string) :
    list (string * string) :=
  namedconf_entries (create_zones g zonenames initial_state).2.

Lemma for_each_app {A} (body : A → M state unit) xs ys s s' :
  for_each xs body s = (Return tt, s') →
  for_each (xs ++ ys) body s = for_each ys body s'.
Proof.
  revert s. induction xs as [|x xs IH]; intros s; simpl.
  - unfold ret. by intros [= ->].
  - unfold bind. destruct (body x s) as [[[]|e] s1]; [apply IH | done].
Qed.

Lemma create_zones_returns g zonenames s :
  (create_zones g zonenames s).1 = Return tt.
Proof.
  unfold create_zones. revert s.
  induction zonenames as [|z zs IH]; intros s; [done|].
  cbn [for_each]. erewrite bind_Return; [apply IH|].
  erewrite bind_Return by apply get_zone_file_run. reflexivity.
Qed.

Lemma create_zones_snoc g zonenames z s :
  (create_zones g (zonenames ++ [z]) s).2 =
  (get_zone_file g z (create_zones g zonenames s).2).2.
Proof.
  pose proof (create_zones_returns g zonenames s) as Hret.
  destruct (create_zones g zonenames s) as [o s1] eqn:Hrun. simpl in Hret.
  subst o. unfold create_zones in *.
  rewrite (for_each_app _ _ _ _ _ Hrun). cbn [for_each].
  erewrite bind_Return.
  2:{ erewrite bind_Return by apply get_zone_file_run. reflexivity. }
  rewrite get_zone_file_run. reflexivity.
Qed.

Lemma registry_after_keys g zonenames z :
  z ∈ dict_keys (registry_after g zonenames) ↔ z ∈ zonenames.
Proof.
  induction zonenames as [|z0 zs IH] using rev_ind.
  - unfold registry_after. simpl. split; intros H; by apply elem_of_nil in H.
  - unfold registry_after in *. rewrite create_zones_snoc, get_zone_file_run.
    cbn [snd namedconf_entries]. rewrite elem_of_app, list_elem_of_singleton.
    rewrite <- IH. set (d := namedconf_entries _).
    destruct (decide (z0 ∈ dict_keys d)) as [Hin|Hnin].
    + destruct (dict_set_present d z0 (zone_fname z0) Hin) as [-> _].
      split; [by left | intros [?| ->]; done].
    + rewrite dict_set_absent by done. unfold dict_keys. rewrite map_app.
      simpl. by rewrite elem_of_app, list_elem_of_singleton.
Qed.

Lemma registry_after_fnames g zonenames z f :
  (z, f) ∈ registry_after g zonenames → f = zone_fname z.
Proof.
  revert z f. induction zonenames as [|z0 zs IH] using rev_ind; intros z f.
  - unfold registry_after. simpl. intros H. by apply elem_of_nil in H.
  - unfold registry_after in *. rewrite create_zones_snoc, get_zone_file_run.
    cbn [snd namedconf_entries]. set (d := namedconf_entries _) in *.
    clearbody d. induction d as [|[k v] d IHd]; simpl.
    + intros H. apply list_elem_of_singleton in H. by inversion H.
    + destruct (decide (z0 = k)) as [->|Hne]; intros H;
        apply elem_of_cons in H as [H|H].
      * by inversion H.
      * apply IH. by right.
      * apply IH. rewrite H. by left.
      * apply IHd; [|done]. intros z' f' H'. apply IH. by right.
Qed.

Lemma dict_set_same {K V} `{EqDecision K} (d : list (K * V)) k v :
  (k, v) ∈ d → NoDup (dict_keys d) → dict_set k v d = d.
Proof.
  unfold dict_keys. induction d as [|[k' v'] d IH]; simpl.
  - intros H. by apply elem_of_nil in H.
  - intros Hin Hnd. apply NoDup_cons in Hnd as [Hk' Hnd].
    destruct (decide (k = k')) as [->|Hne].
    + apply elem_of_cons in Hin as [Hin|Hin]; [by inversion Hin|].
      exfalso. apply Hk'. change k' with (k', v).1.
      by apply list_elem_of_fmap_2.
    + apply elem_of_cons in Hin as [Hin|Hin]; [by inversion Hin|].
      by rewrite IH.
Qed.

Lemma registry_after_NoDup g zonenames :
  NoDup (dict_keys (registry_after g zonenames)).
Proof.
  induction zonenames as [|z0 zs IH] using rev_ind.
  - apply NoDup_nil_2.
  - unfold registry_after in *. rewrite create_zones_snoc, get_zone_file_run.
    by apply dict_set_NoDup.
Qed.

Lemma with_line_insert fd line (fs : gmap string (list string)) old :
  fs !! fd = Some old → with_line fd line fs = <[fd := old ++ [line]]> fs.
Proof. unfold with_line. by intros ->. Qed.

Lemma fd_write_loop {A} fd (text : A → string) xs ptr nc
    (fs : gmap string (list string)) old :
  fs !! fd = Some old →
  for_each xs (λ x, fd_write fd (text x))
           {| ptr_records := ptr; namedconf_entries := nc; files := fs |} =
  (Return tt,
   {| ptr_records := ptr; namedconf_entries := nc;
      files := <[fd := old ++ map text xs]> fs |}).
Proof.
  revert fs old. induction xs as [|x xs IH]; intros fs old Hfd.
  - simpl. unfold ret. by rewrite app_nil_r, insert_id.
  - cbn [for_each]. erewrite bind_Return by reflexivity.
    cbn [ptr_records namedconf_entries files]. rewrite Hfd. cbn [default].
    rewrite (IH _ (old ++ [text x])) by apply lookup_insert_eq.
    rewrite insert_insert_eq, <- app_assoc. reflexivity.
Qed.

Lemma write_named_conf_run g s :
  write_named_conf g s =
  (Return tt,
   {| ptr_records := ptr_records s;
      namedconf_entries := namedconf_entries s;
      files := <[named_conf_path :=
                   options_stanza g :: map zone_stanza (namedconf_entries s)]>
                 (files s) |}).
Proof.
  unfold write_named_conf.
  erewrite bind_Return by reflexivity.
  erewrite bind_Return by reflexivity.
  erewrite bind_Return by reflexivity.
  cbn [ptr_records namedconf_entries files].
  rewrite lookup_insert_eq, insert_insert_eq. cbn [default app].
  rewrite (fd_write_loop _ _ _ _ _ _ [options_stanza g])
    by apply lookup_insert_eq.
  by rewrite insert_insert_eq.
Qed.

Definition two_blocks_settings : settings :=
  {| argv0 := "scripts/make-dns-records.py";
     out_dir := "global-config/dns-zones/";
     dns_ttl := "3600";
     dns_nameserver_prefix := "ns1";
     dns_domain := "example.dn42";
     dns_zones_dir := "/etc/bind/zones";
     hosts := [];
     dns_records := [("example.dn42", [gw_record])];
     ownnets4 := ["172.20.229.0/24"; "172.20.229.112/28"];
     ownnets6 := [] |}.

(** C9, as stated, fails when two zones share a name.  A run with the
    blocks 172.20.229.0/24 and 172.20.229.112/28 creates four zones, the
    last of them under the name the second already has; the registry ends
    with three entries and the registration file with the options stanza
    and three zone stanzas. *)
Lemma shared_zone_name_is_registered_once :
  let created := ["example.dn42"; "229.20.172.in-addr.arpa";
                  "112/28.229.20.172.in-addr.arpa"; "229.20.172.in-addr.arpa"] in
  let r := main two_blocks_settings initial_state in
  r.1 = Return tt ∧
  namedconf_entries r.2 = registry_after two_blocks_settings created ∧
  length created = 4%nat ∧
  length (namedconf_entries r.2) = 3%nat ∧
  length <$> files r.2 !! named_conf_path = Some 4%nat.
Proof. vm_compute. repeat split. Qed.

(** The zone names in the order of their first creation. *)
Definition first_occurrences (zonenames : list string) : list string :=
  foldl (λ seen z, if decide (z ∈ seen) then seen else seen ++ [z]) [] zonenames.

(** C9, amended.  The registry only grows at its end, and by one entry for
    each zone name not seen before: creating a zone whose name is already
    registered changes nothing, creating one with a new name appends the
    pair of the name and its file name.  So after any sequence of zone
    creations the registry lists the distinct names once each, in the
    order of their first creation, and [write_named_conf] writes the
    options stanza followed by one zone stanza per registry entry in that
    order, leaving the registry as it is. *)
Theorem registry_one_entry_per_zone_name g zonenames z :
  let registry := registry_after g zonenames in
  let s := (create_zones g zonenames initial_state).2 in
  registry_after g (zonenames ++ [z]) =
    registry ++ (if decide (z ∈ zonenames) then [] else [(z, zone_fname z)]) ∧
  registry = map (λ z, (z, zone_fname z)) (first_occurrences zonenames) ∧
  NoDup (dict_keys registry) ∧
  (write_named_conf g s).1 = Return tt ∧
  namedconf_entries (write_named_conf g s).2 = registry ∧
  files (write_named_conf g s).2 !! named_conf_path =
    Some (options_stanza g :: map zone_stanza registry).
Proof.
  intros registry s.
  assert (Hstep : ∀ zs z0, registry_after g (zs ++ [z0]) =
            registry_after g zs ++
            (if decide (z0 ∈ zs) then [] else [(z0, zone_fname z0)])).
  { intros zs z0. unfold registry_after at 1.
    rewrite create_zones_snoc, get_zone_file_run. cbn [snd namedconf_entries].
    fold (registry_after g zs).
    destruct (decide (z0 ∈ zs)) as [Hin|Hnin].
    - rewrite app_nil_r. apply dict_set_same; [|apply registry_after_NoDup].
      rewrite <- (registry_after_keys g) in Hin. unfold dict_keys in Hin.
      apply list_elem_of_fmap in Hin as ([z1 f] & -> & Hin).
      simpl. by rewrite <- (registry_after_fnames g zs z1 f Hin).
    - apply dict_set_absent. by rewrite registry_after_keys. }
  split; [apply Hstep|]. split; [|split; [apply registry_after_NoDup|]].
  - subst registry. clear s z. unfold first_occurrences.
    induction zonenames as [|z0 zs IH] using rev_ind; [reflexivity|].
    rewrite Hstep, foldl_app. cbn [foldl]. rewrite IH.
    set (seen := foldl _ [] zs) in *.
    assert (Hseen : z0 ∈ seen ↔ z0 ∈ zs).
    { rewrite <- (registry_after_keys g zs z0), IH. unfold dict_keys.
      rewrite <- list_fmap_compose. simpl.
      by rewrite list_fmap_id. }
    destruct (decide (z0 ∈ zs)) as [Hin|Hnin].
    + rewrite decide_True by by apply Hseen. by rewrite app_nil_r.
    + rewrite decide_False by by rewrite Hseen. by rewrite map_app.
  - rewrite write_named_conf_run. cbn [fst snd namedconf_entries files].
    rewrite lookup_insert_eq. done.
Qed.

(** ** Reverse zones from the PTR index *)

(** An address without a scope id; only on these does [reverse_pointer]
    return. *)
Definition unscoped (a : ipaddr) : bool :=
  match a with
  | IPv6Address _ (Some (String _ _)) => false
  | _ => true
  end.

(** The reverse pointer as plain text. *)
Definition pointer_name (a : ipaddr) : string :=
  match reverse_pointer a with
  | Return name => name
  | Raise _ => EmptyString
  end.

Lemma reverse_pointer_unscoped a :
  unscoped a = true → reverse_pointer a = Return (pointer_name a).
Proof.
  unfold pointer_name.
  destruct a as [ip|ip [[|c sc]|]]; cbn [unscoped reverse_pointer exploded6 obind];
    done.
Qed.

(** The spec's [entriesWithin]: the index entries whose address is in the
    block, in the order the index holds them. *)
Definition entriesWithin (index : list (ipaddr * string)) (ipnet : network) :
    list (ipaddr * string) :=
  List.filter (λ entry, contains_address ipnet entry.1) index.

(** The line [_write_ptr_zone] writes for an index entry. *)
Definition ptr_line (entry : ipaddr * string) : string :=
  entry_line (pointer_name entry.1) "PTR" (dotted entry.2).

Lemma write_ptr_records_run fd ipnet items ptr nc
    (fs : gmap string (list string)) old :
  fs !! fd = Some old →
  (∀ entry, entry ∈ entriesWithin items ipnet → unscoped entry.1 = true) →
  for_each items (write_ptr_record fd ipnet)
           {| ptr_records := ptr; namedconf_entries := nc; files := fs |} =
  (Return tt,
   {| ptr_records := ptr; namedconf_entries := nc;
      files := <[fd := old ++ map ptr_line (entriesWithin items ipnet)]> fs |}).
Proof.
  revert fs old. induction items as [|[ip record] items IH]; intros fs old Hfd Hsc.
  - simpl. unfold ret. by rewrite app_nil_r, insert_id.
  - cbn [for_each]. unfold write_ptr_record at 1.
    unfold entriesWithin in *. cbn [List.filter fst] in *.
    destruct (contains_address ipnet ip) eqn:Hin.
    + erewrite bind_Return.
      2:{ erewrite bind_Return.
          2:{ unfold lift. rewrite reverse_pointer_unscoped; [reflexivity|].
              apply (Hsc (ip, record)). by left. }
          rewrite _write_entry_plain. reflexivity. }
      cbn [ptr_records namedconf_entries files].
      rewrite (with_line_insert _ _ _ old) by done.
      rewrite (IH _ (old ++ [entry_line (pointer_name ip) (upper "PTR") (dotted record)]))
        by (try apply lookup_insert_eq; intros e He; apply Hsc; by right).
      rewrite insert_insert_eq, <- app_assoc. reflexivity.
    + erewrite bind_Return by reflexivity. apply IH; done.
Qed.

Lemma _write_ptr_zone_run g zonename ipnet s :
  (∀ entry, entry ∈ entriesWithin (ptr_records s) ipnet → unscoped entry.1 = true) →
  _write_ptr_zone g zonename ipnet s =
  (Return tt,
   {| ptr_records := ptr_records s;
      namedconf_entries :=
        dict_set zonename (zone_fname zonename) (namedconf_entries s);
      files :=
        <[zone_path g zonename :=
            zone_header g zonename
            :: map ptr_line (entriesWithin (ptr_records s) ipnet)]> (files s) |}).
Proof.
  intros Hsc. unfold _write_ptr_zone.
  erewrite bind_Return by apply get_zone_file_run.
  erewrite bind_Return by reflexivity.
  cbn [ptr_records].
  rewrite (write_ptr_records_run _ _ _ _ _ _ [zone_header g zonename])
    by (try apply lookup_insert_eq; done).
  by rewrite insert_insert_eq.
Qed.

(** ** Text *)

Lemma app_cons c (a b : string) : String c a +:+ b = String c (a +:+ b).
Proof. reflexivity. Qed.

Lemma app_empty_l (b : string) : EmptyString +:+ b = b.
Proof. reflexivity. Qed.

Lemma app_empty_r (a : string) : a +:+ EmptyString = a.
Proof. induction a as [|c a IH]; [done|]. by rewrite app_cons, IH. Qed.

Lemma app_assoc_str (a b c : string) : (a +:+ b) +:+ c = a +:+ (b +:+ c).
Proof. induction a as [|x a IH]; [done|]. by rewrite !app_cons, IH. Qed.

Lemma length_app_str (a b : string) :
  String.length (a +:+ b) = (String.length a + String.length b)%nat.
Proof. induction a as [|x a IH]; [done|]. rewrite app_cons. simpl. by rewrite IH. Qed.

Lemma contains_app c (a b : string) :
  contains c (a +:+ b) = contains c a || contains c b.
Proof.
  induction a as [|x a IH]; [done|]. rewrite app_cons. simpl.
  by destruct (Ascii.eqb x c).
Qed.

Lemma split_no_sep sep (a : string) :
  contains sep a = false → split sep a = [a].
Proof.
  induction a as [|x a IH]; [done|]. simpl.
  destruct (Ascii.eqb x sep); [done|]. intros Ha. by rewrite IH.
Qed.

Lemma split_app_sep sep (a b : string) :
  contains sep a = false →
  split sep (a +:+ String sep b) = a :: split sep b.
Proof.
  induction a as [|x a IH].
  - intros _. rewrite app_empty_l. simpl. by rewrite Ascii.eqb_refl.
  - rewrite app_cons. simpl. destruct (Ascii.eqb x sep); [done|].
    intros Ha. by rewrite IH.
Qed.

Lemma lstrip_app chars (a b : string) :
  all_chars (λ c, contains c chars) a = true →
  lstrip chars (a +:+ b) = lstrip chars b.
Proof.
  induction a as [|x a IH]; [done|]. rewrite app_cons. simpl.
  destruct (contains x chars); [apply IH | done].
Qed.

Lemma lstrip_stop chars c (r : string) :
  contains c chars = false → lstrip chars (String c r) = String c r.
Proof. simpl. by intros ->. Qed.

Lemma contains_lstrip c chars (s : string) :
  contains c (lstrip chars s) = true → contains c s = true.
Proof.
  induction s as [|x s IH]; [done|]. simpl.
  destruct (contains x chars); [|done].
  intros H. destruct (Ascii.eqb x c); [done | by apply IH].
Qed.

Lemma contains_replace_old old new (s : string) :
  contains old new = false → contains old (replace old new s) = false.
Proof.
  intros Hnew. induction s as [|x s IH]; [done|]. simpl.
  destruct (Ascii.eqb x old) eqn:Hx.
  - by rewrite contains_app, Hnew, IH.
  - simpl. by rewrite Hx.
Qed.

Lemma contains_replace_new old c (s : string) :
  contains old s = true → contains c (replace old (String c EmptyString) s) = true.
Proof.
  induction s as [|x s IH]; [done|]. simpl.
  destruct (Ascii.eqb x old) eqn:Hx.
  - intros _. rewrite app_cons. simpl. by rewrite Ascii.eqb_refl.
  - intros Hs. simpl. destruct (Ascii.eqb x c); [done | by apply IH].
Qed.

Lemma replace_absent old new (s : string) :
  contains old s = false → replace old new s = s.
Proof.
  induction s as [|x s IH]; [done|]. simpl.
  destruct (Ascii.eqb x old); [done|]. intros Hs. by rewrite IH.
Qed.

Lemma startswith_contains c (s : string) :
  startswith s (String c EmptyString) = true → contains c s = true.
Proof.
  unfold startswith. destruct s as [|x s]; simpl; [done|].
  destruct (ascii_dec c x) as [->|Hne]; [by rewrite Ascii.eqb_refl | done].
Qed.

(** A property checked on every integer below a bound. *)
Lemma Z_range_forallb (P : Z → bool) (n : nat) :
  forallb P (map Z.of_nat (seq 0 n)) = true →
  ∀ z, 0 ≤ z < Z.of_nat n → P z = true.
Proof.
  intros Hall z Hz. rewrite forallb_forall in Hall. apply Hall.
  apply in_map_iff. exists (Z.to_nat z). split; [lia|].
  apply in_seq. lia.
Qed.

(** ** IPv4 text and networks *)

Lemma octet_range x : 0 ≤ Z.land x 255 < 256.
Proof.
  change 255 with (Z.ones 8). rewrite Z.land_ones by lia.
  apply Z.mod_pos_bound. lia.
Qed.

(** No dot, slash or underscore. *)
Definition plain_text (s : string) : bool :=
  negb (contains "." s) && negb (contains "/" s) && negb (contains "_" s).

Lemma str_small_plain o : 0 ≤ o < 256 → plain_text (str o) = true.
Proof.
  apply (Z_range_forallb (λ o, plain_text (str o)) 256). vm_compute. reflexivity.
Qed.

Lemma plain_text_dot s : plain_text s = true → contains "." s = false.
Proof. unfold plain_text. destruct (contains "." s); done. Qed.

Lemma plain_text_slash s : plain_text s = true → contains "/" s = false.
Proof.
  unfold plain_text. destruct (contains "/" s); [|done].
  by rewrite andb_false_r.
Qed.

Lemma plain_text_underscore s : plain_text s = true → contains "_" s = false.
Proof.
  unfold plain_text. destruct (contains "_" s); [|done].
  by rewrite andb_false_r.
Qed.

Lemma plain_text_app a b :
  plain_text a = true → plain_text b = true → plain_text (a +:+ b) = true.
Proof.
  intros Ha Hb. unfold plain_text. rewrite !contains_app.
  rewrite (plain_text_dot _ Ha), (plain_text_dot _ Hb),
    (plain_text_slash _ Ha), (plain_text_slash _ Hb),
    (plain_text_underscore _ Ha), (plain_text_underscore _ Hb). done.
Qed.

(** The text of a non-zero octet starts with a digit [lstrip('0.')] keeps. *)
Definition starts_significant (s : string) : bool :=
  match s with
  | String c _ => negb (contains c "0.")
  | EmptyString => false
  end.

Lemma str_octet_significant o :
  0 < o < 256 → starts_significant (str o) = true.
Proof.
  intros Ho.
  assert (H : (o =? 0) || starts_significant (str o) = true).
  { apply (Z_range_forallb (λ o, (o =? 0) || starts_significant (str o)) 256);
      [vm_compute; reflexivity | lia]. }
  destruct (Z.eqb_spec o 0); [lia | done].
Qed.

Lemma lstrip_significant chars (s r : string) :
  chars = "0." → starts_significant s = true → lstrip chars (s +:+ r) = s +:+ r.
Proof.
  intros -> Hs. destruct s as [|c s]; [done|]. rewrite app_cons.
  apply lstrip_stop. unfold starts_significant in Hs.
  by apply negb_true_iff in Hs.
Qed.

Lemma split_dotted4 (a b c d : string) :
  contains "." a = false → contains "." b = false →
  contains "." c = false → contains "." d = false →
  split "." (a +:+ "." +:+ b +:+ "." +:+ c +:+ "." +:+ d) = [a; b; c; d].
Proof.
  intros Ha Hb Hc Hd.
  change ("." +:+ b +:+ "." +:+ c +:+ "." +:+ d)
    with (String "." (b +:+ String "." (c +:+ String "." d))).
  rewrite !split_app_sep by done. by rewrite split_no_sep.
Qed.

(** The octets of an address, most significant first. *)
Definition octet1 (ip : Z) : Z := Z.land (Z.shiftr ip 24) 255.
Definition octet2 (ip : Z) : Z := Z.land (Z.shiftr ip 16) 255.
Definition octet3 (ip : Z) : Z := Z.land (Z.shiftr ip 8) 255.
Definition octet4 (ip : Z) : Z := Z.land ip 255.

Lemma str4_form ip :
  str4 (IPv4Address ip) =
  str (octet1 ip) +:+ "." +:+ str (octet2 ip) +:+ "." +:+
  str (octet3 ip) +:+ "." +:+ str (octet4 ip).
Proof. reflexivity. Qed.

Lemma str_octet_dot x : contains "." (str (Z.land x 255)) = false.
Proof. apply plain_text_dot, str_small_plain, octet_range. Qed.

(** [a.reverse_pointer] of an IPv4 address, spelled out. *)
Lemma pointer_name4_form ip :
  pointer_name (IPv4Address ip) =
  str (octet4 ip) +:+ "." +:+ str (octet3 ip) +:+ "." +:+
  str (octet2 ip) +:+ "." +:+ str (octet1 ip) +:+ ".in-addr.arpa".
Proof.
  unfold pointer_name. cbn [reverse_pointer]. unfold _reverse_pointer4.
  rewrite str4_form, split_dotted4 by apply str_octet_dot.
  cbn [rev app]. unfold join. cbn [String.concat].
  by rewrite !app_assoc_str.
Qed.

(** [n.reverse_pointer] of an IPv4 network, spelled out. *)
Lemma network_reverse_pointer_form ip mask p :
  0 ≤ p < 256 →
  network_reverse_pointer (Network (IPv4Address ip) mask p) =
  str (octet4 ip) +:+ "/" +:+ str p +:+ "." +:+ str (octet3 ip) +:+ "." +:+
  str (octet2 ip) +:+ "." +:+ str (octet1 ip) +:+ ".in-addr.arpa".
Proof.
  intros Hp. unfold network_reverse_pointer, _reverse_pointer4, str_network4.
  cbn [network_address prefixlen]. rewrite str4_form.
  assert (Htext :
    (str (octet1 ip) +:+ "." +:+ str (octet2 ip) +:+ "." +:+
     str (octet3 ip) +:+ "." +:+ str (octet4 ip)) +:+ "/" +:+ str p =
    str (octet1 ip) +:+ "." +:+ str (octet2 ip) +:+ "." +:+
    str (octet3 ip) +:+ "." +:+ (str (octet4 ip) +:+ "/" +:+ str p)).
  { by rewrite !app_assoc_str. }
  rewrite Htext, split_dotted4; try apply str_octet_dot.
  - cbn [rev app]. unfold join. cbn [String.concat].
    by rewrite !app_assoc_str.
  - rewrite !contains_app.
    rewrite (str_octet_dot ip : contains "." (str (octet4 ip)) = false).
    by rewrite (plain_text_dot _ (str_small_plain p Hp)).
Qed.

(** ** What a parsed IPv4 network looks like *)

Lemma int10_acc_nonneg s acc :
  all_chars is_digit s = true → 0 ≤ acc → 0 ≤ int10_acc acc s.
Proof.
  revert acc. induction s as [|c s IH]; intros acc; simpl; [done|].
  intros [Hc Hs]%andb_true_iff Hacc. apply IH; [done|].
  unfold is_digit in Hc. apply andb_true_iff in Hc as [Hc _].
  apply Nat.leb_le in Hc. lia.
Qed.

Lemma _parse_octet_range s o : _parse_octet s = Return o → 0 ≤ o ≤ 255.
Proof.
  unfold _parse_octet.
  destruct (String.eqb s ""); [done|].
  destruct (isdigit s) eqn:Hd; [|done]. cbn [negb].
  destruct (3 <? String.length s)%nat; [done|].
  destruct (negb (String.eqb s "0") && startswith s "0"); [done|].
  destruct (Z.ltb_spec 255 (int10 s)); [done|].
  intros [= <-]. split; [|lia].
  apply int10_acc_nonneg; [|done].
  unfold isdigit in Hd. by destruct s.
Qed.

Lemma _ip_int_from_string4_range s ip :
  _ip_int_from_string4 s = Return ip → 0 ≤ ip < 2 ^ 32.
Proof.
  unfold _ip_int_from_string4.
  destruct (String.eqb s ""); [done|].
  destruct (split "." s) as [|a [|b [|c [|d [|? ?]]]]]; try done.
  cbn [length Nat.eqb negb mapM obind].
  destruct (_parse_octet a) as [oa|] eqn:Ha; cbn [obind]; [|done].
  destruct (_parse_octet b) as [ob|] eqn:Hb; cbn [obind]; [|done].
  destruct (_parse_octet c) as [oc|] eqn:Hc; cbn [obind]; [|done].
  destruct (_parse_octet d) as [od|] eqn:Hd; cbn [obind]; [|done].
  intros [= <-].
  apply _parse_octet_range in Ha, Hb, Hc, Hd.
  unfold from_bytes. cbn [fold_left]. lia.
Qed.

Lemma IPv4Address_of_str_form s a :
  IPv4Address_of_str s = Return a → ∃ ip, a = IPv4Address ip ∧ 0 ≤ ip < 2 ^ 32.
Proof.
  unfold IPv4Address_of_str. destruct (contains "/" s); [done|].
  destruct (_ip_int_from_string4 s) as [ip|] eqn:Hip; cbn [obind]; [|done].
  intros [= <-]. exists ip. split; [done|].
  by apply _ip_int_from_string4_range in Hip.
Qed.

Lemma bit_length_nonneg n : 0 ≤ bit_length n.
Proof.
  unfold bit_length. destruct (n =? 0); [done|].
  pose proof (Z.log2_nonneg (Z.abs n)). lia.
Qed.

Lemma _prefix_from_ip_int_range ip p :
  _prefix_from_ip_int 4 ip = Return p → 0 ≤ p ≤ 32.
Proof.
  unfold _prefix_from_ip_int, _count_righthand_zero_bits.
  change (max_prefixlen 4) with 32.
  destruct (negb _); [done|]. intros [= <-].
  destruct (ip =? 0); [lia|].
  pose proof (bit_length_nonneg (Z.land (Z.lnot ip) (ip - 1))). lia.
Qed.

Lemma _make_netmask4_form arg nm p :
  _make_netmask 4 arg = Return (nm, p) →
  nm = IPv4Address (_ip_int_from_prefix 4 p) ∧ 0 ≤ p ≤ 32.
Proof.
  unfold _make_netmask. change (4 =? 4) with true.
  change (max_prefixlen 4) with 32. cbn [obind].
  set (r := match arg with MaskInt _ => _ | MaskStr _ => _ end).
  assert (Hr : ∀ q, r = Return q → 0 ≤ q ≤ 32).
  { subst r. intros q. destruct arg as [n|s].
    - destruct ((0 <=? n) && (n <=? 32)) eqn:Hb; cbn [negb]; [|done].
      intros [= <-]. apply andb_true_iff in Hb as [H0 H1]. lia.
    - unfold _prefix_from_prefix_string, _prefix_from_ip_string.
      change (max_prefixlen 4) with 32.
      destruct (isdigit s); cbn [negb].
      + destruct ((0 <=? int10 s) && (int10 s <=? 32)) eqn:Hb; cbn [negb].
        * intros [= <-]. apply andb_true_iff in Hb as [H0 H1]. lia.
        * destruct (_ip_int_from_string4 s); [|done].
          destruct (_prefix_from_ip_int 4 a) eqn:H1.
          { intros [= <-]. by apply _prefix_from_ip_int_range in H1. }
          destruct (_prefix_from_ip_int 4 (Z.lxor a (ALL_ONES 4))) eqn:H2;
            [|done].
          intros [= <-]. by apply _prefix_from_ip_int_range in H2.
      + destruct (_ip_int_from_string4 s); [|done].
        destruct (_prefix_from_ip_int 4 a) eqn:H1.
        { intros [= <-]. by apply _prefix_from_ip_int_range in H1. }
        destruct (_prefix_from_ip_int 4 (Z.lxor a (ALL_ONES 4))) eqn:H2;
          [|done].
        intros [= <-]. by apply _prefix_from_ip_int_range in H2. }
  destruct r as [q|e]; cbn [obind]; [|done].
  intros [= <- <-]. split; [done | by apply Hr].
Qed.

(** A network the strict IPv4 constructor returns: a 32-bit address, a
    prefix length from 0 to 32, the netmask of that length, and no bit of
    the address outside the mask. *)
Record wf_network4 (n : network) (ip : Z) : Prop := WfNetwork4 {
  wf_address : network_address n = IPv4Address ip;
  wf_range : 0 ≤ ip < 2 ^ 32;
  wf_prefixlen : 0 ≤ prefixlen n ≤ 32;
  wf_netmask : netmask n = IPv4Address (_ip_int_from_prefix 4 (prefixlen n));
  wf_strict : Z.land ip (_ip_int_from_prefix 4 (prefixlen n)) = ip
}.

Lemma _strict_form text na mask n :
  _strict text na mask = Return n →
  n = Network na mask.1 mask.2 ∧ Z.land (int na) (int mask.1) = int na.
Proof.
  unfold _strict. destruct (Z.eqb_spec (Z.land (int na) (int mask.1)) (int na));
    cbn [negb]; [|done].
  by intros [= <-].
Qed.

Lemma IPv4Network_wf netblock n :
  IPv4Network netblock = Return n → ∃ ip, wf_network4 n ip.
Proof.
  unfold IPv4Network.
  destruct (_split_addr_prefix 4 netblock) as [[addr mask]|]; [|done].
  destruct (IPv4Address_of_str addr) as [na|] eqn:Hna; cbn [obind]; [|done].
  destruct (_make_netmask 4 mask) as [[nm p]|] eqn:Hnm; cbn [obind]; [|done].
  intros Hn. apply _strict_form in Hn as [-> Hstrict].
  apply IPv4Address_of_str_form in Hna as (ip & -> & Hip).
  apply _make_netmask4_form in Hnm as [-> Hp].
  exists ip. by split.
Qed.

(** ** Octet-aligned IPv4 blocks *)

Lemma entries_within4_unscoped index ipnet ip entry :
  network_address ipnet = IPv4Address ip →
  entry ∈ entriesWithin index ipnet → unscoped entry.1 = true.
Proof.
  intros Hna Hin. unfold entriesWithin in Hin.
  apply list_elem_of_In, filter_In in Hin as [_ Hin].
  unfold contains_address in Hin. rewrite Hna in Hin.
  destruct entry as [[z|z sc] record]; [done|]. by cbn in Hin.
Qed.

Lemma lift_Return {A B} (r : outcome A) (a : A) (k : A → M state B) s :
  r = Return a → bind (lift r) k s = k a s.
Proof. by intros ->. Qed.

Lemma lift_Raise {A B} (r : outcome A) e (k : A → M state B) s :
  r = Raise e → bind (lift r) k s = (Raise e, s).
Proof. by intros ->. Qed.

Lemma stripped_reverse_pointer4 ip :
  stripped_reverse_pointer (IPv4Address ip) =
  Return (lstrip "0." (pointer_name (IPv4Address ip))).
Proof. reflexivity. Qed.

(** The state [_write_ptr_zone] leaves for a zone name and a block. *)
Definition ptr_zone_written (g : settings) (zonename : string)
    (ipnet : network) (s : state) : state :=
  {| ptr_records := ptr_records s;
     namedconf_entries :=
       dict_set zonename (zone_fname zonename) (namedconf_entries s);
     files :=
       <[zone_path g zonename :=
           zone_header g zonename
           :: map ptr_line (entriesWithin (ptr_records s) ipnet)]> (files s) |}.

(** An IPv4 block whose prefix length is a multiple of 8 gives one zone:
    [write_ptr4_zone] returns, registers the one name
    [network_address.reverse_pointer.lstrip('0.')], and the zone file holds
    the header and then one PTR line for each index entry inside the block,
    in the order of the index; the index itself is not changed. *)
Theorem write_ptr4_zone_aligned g netblock ipnet s :
  IPv4Network netblock = Return ipnet →
  prefixlen ipnet mod 8 = 0 →
  write_ptr4_zone g netblock s =
  (Return tt,
   ptr_zone_written g (lstrip "0." (pointer_name (network_address ipnet)))
                    ipnet s).
Proof.
  intros Hparse Halign. destruct (IPv4Network_wf _ _ Hparse) as [ip Hwf].
  unfold write_ptr4_zone. rewrite (lift_Return _ _ _ _ Hparse).
  apply Z.eqb_eq in Halign. rewrite Halign.
  rewrite (wf_address _ _ Hwf).
  rewrite (lift_Return _ _ _ _ (stripped_reverse_pointer4 ip)).
  apply _write_ptr_zone_run. intros entry.
  apply (entries_within4_unscoped _ _ ip), Hwf.
Qed.

Lemma write_ptr4_zone_aligned_witness :
  (write_ptr4_zone example_settings "172.20.0.0/16" initial_state).1 = Return tt ∧
  namedconf_entries
    (write_ptr4_zone example_settings "172.20.0.0/16" initial_state).2
  = [("20.172.in-addr.arpa", "20.172.in-addr.arpa.zone")].
Proof.
  assert (Hparse : IPv4Network "172.20.0.0/16" =
                   Return (Network (IPv4Address 2886991872)
                                   (IPv4Address 4294901760) 16))
    by reflexivity.
  rewrite (write_ptr4_zone_aligned example_settings _ _ initial_state Hparse)
    by reflexivity.
  split; reflexivity.
Defined.

(** The classic reverse zone name of a block on an octet boundary: the
    network octets in reverse, then [in-addr.arpa]. *)
Definition classic_zone_name (ip p : Z) : string :=
  join "." (map str (rev (firstn (Z.to_nat (p / 8)) (to_bytes4 ip)))
            ++ ["in-addr"; "arpa"]).

Lemma masked_octet ip mask k :
  Z.land ip mask = ip →
  Z.land (Z.shiftr mask k) 255 = 0 →
  Z.land (Z.shiftr ip k) 255 = 0.
Proof.
  intros Hip Hmask. rewrite <- Hip, Z.shiftr_land, <- Z.land_assoc, Hmask.
  apply Z.land_0_r.
Qed.

Lemma masked_octet4 ip mask :
  Z.land ip mask = ip → Z.land mask 255 = 0 → octet4 ip = 0.
Proof.
  intros Hip Hmask. unfold octet4. rewrite <- (Z.shiftr_0_r ip).
  apply (masked_octet _ mask); [done|]. by rewrite Z.shiftr_0_r.
Qed.

Lemma lstrip_zero_octet (r : string) :
  lstrip "0." (str 0 +:+ "." +:+ r) = lstrip "0." r.
Proof. reflexivity. Qed.

Lemma aligned_prefixlen p :
  0 ≤ p ≤ 32 → p mod 8 = 0 → p = 0 ∨ p = 8 ∨ p = 16 ∨ p = 24 ∨ p = 32.
Proof. intros Hp Hm. apply Z.mod_divide in Hm as [k ->]; lia. Qed.

(** For a block on an octet boundary whose last network octet is not 0,
    the name [write_ptr4_zone] builds with [lstrip('0.')] is the classic
    zone name: the strip removes the zero host octets and stops at the
    network part. *)
Theorem aligned_zone_name_classic netblock ipnet :
  IPv4Network netblock = Return ipnet →
  prefixlen ipnet mod 8 = 0 →
  prefixlen ipnet = 0 ∨
    Z.land (Z.shiftr (int (network_address ipnet)) (32 - prefixlen ipnet)) 255 ≠ 0 →
  lstrip "0." (pointer_name (network_address ipnet)) =
  classic_zone_name (int (network_address ipnet)) (prefixlen ipnet).
Proof.
  intros Hparse Halign Hlast. destruct (IPv4Network_wf _ _ Hparse) as [ip Hwf].
  destruct Hwf as [Hna Hip Hp Hnm Hstrict]. rewrite Hna in *. cbn [int] in *.
  rewrite pointer_name4_form. unfold classic_zone_name, to_bytes4.
  fold (octet1 ip) (octet2 ip) (octet3 ip) (octet4 ip).
  assert (Hsig : ∀ o r, 0 ≤ o < 256 → o ≠ 0 →
            lstrip "0." (str o +:+ r) = str o +:+ r).
  { intros o r Ho Hne. apply lstrip_significant; [done|].
    apply str_octet_significant. lia. }
  destruct (aligned_prefixlen _ Hp Halign) as [Hq|[Hq|[Hq|[Hq|Hq]]]];
    rewrite Hq in *; clear Halign Hp.
  - assert (ip = 0) as -> by (rewrite <- Hstrict; apply Z.land_0_r).
    reflexivity.
  - destruct Hlast as [|Hlast]; [done|].
    rewrite (masked_octet4 ip _ Hstrict) by reflexivity.
    unfold octet3, octet2.
    rewrite (masked_octet ip _ 8 Hstrict), (masked_octet ip _ 16 Hstrict)
      by reflexivity.
    rewrite !lstrip_zero_octet.
    rewrite Hsig; [reflexivity | apply octet_range | done].
  - destruct Hlast as [|Hlast]; [done|].
    rewrite (masked_octet4 ip _ Hstrict) by reflexivity.
    unfold octet3. rewrite (masked_octet ip _ 8 Hstrict) by reflexivity.
    rewrite !lstrip_zero_octet.
    rewrite Hsig; [reflexivity | apply octet_range | done].
  - destruct Hlast as [|Hlast]; [done|].
    rewrite (masked_octet4 ip _ Hstrict) by reflexivity.
    rewrite !lstrip_zero_octet.
    rewrite Hsig; [reflexivity | apply octet_range | done].
  - destruct Hlast as [|Hlast]; [done|].
    rewrite Z.shiftr_0_r in Hlast.
    rewrite Hsig; [reflexivity | apply octet_range | done].
Qed.

Lemma aligned_zone_name_classic_witness :
  lstrip "0." (pointer_name (IPv4Address 2886991872)) = "20.172.in-addr.arpa".
Proof.
  apply (aligned_zone_name_classic "172.20.0.0/16"
           (Network (IPv4Address 2886991872) (IPv4Address 4294901760) 16));
    [reflexivity | reflexivity | right; vm_compute; discriminate].
Defined.

(** ** IPv4 blocks off the octet boundary (RFC 2317) *)

(** The owner name the RFC 2317 branch cuts out of an address's reverse
    pointer. *)
Definition relevant_octets (classful_zonename : string) (a : ipaddr) : string :=
  slice_to (pointer_name a)
           (Z.of_nat (String.length (pointer_name a))
            - Z.of_nat (String.length classful_zonename) - 1).

(** The addresses of [addrs] with a non-empty index entry, each with its
    entry, in the order of [addrs]. *)
Definition indexed_hosts (index : list (ipaddr * string)) (addrs : list ipaddr) :
    list (ipaddr * string) :=
  flat_map (λ a, match dict_get a index with
                 | Some (String c r) => [(a, String c r)]
                 | _ => []
                 end) addrs.

Definition rfc2317_ptr_line (classful_zonename : string)
    (entry : ipaddr * string) : string :=
  entry_line (relevant_octets classful_zonename entry.1) "PTR" (dotted entry.2).

Definition rfc2317_cname_line (zonename classful_zonename : string)
    (entry : ipaddr * string) : string :=
  entry_line (relevant_octets classful_zonename entry.1) "CNAME"
             (relevant_octets classful_zonename entry.1 +:+ "." +:+ zonename +:+ ".").

Lemma write_rfc2317_records_hit fd cfd czone ipnet a c r ptr nc fs :
  unscoped a = true →
  dict_get a ptr = Some (String c r) →
  write_rfc2317_records fd cfd czone ipnet a
    {| ptr_records := ptr; namedconf_entries := nc; files := fs |} =
  (Return tt,
   {| ptr_records := ptr; namedconf_entries := nc;
      files :=
        with_line cfd
          (rfc2317_cname_line (network_reverse_pointer ipnet) czone (a, String c r))
          (with_line fd (rfc2317_ptr_line czone (a, String c r)) fs) |}).
Proof.
  intros Ha Hget. unfold write_rfc2317_records.
  erewrite bind_Return by reflexivity. cbn [ptr_records]. rewrite Hget.
  rewrite (lift_Return _ _ _ _ (reverse_pointer_unscoped a Ha)).
  erewrite bind_Return by apply _write_entry_plain.
  rewrite _write_entry_plain. reflexivity.
Qed.

Lemma write_rfc2317_records_miss fd cfd czone ipnet a s :
  match dict_get a (ptr_records s) with
  | Some (String _ _) => False
  | _ => True
  end →
  write_rfc2317_records fd cfd czone ipnet a s = (Return tt, s).
Proof.
  intros Hget. unfold write_rfc2317_records.
  erewrite bind_Return by reflexivity.
  destruct (dict_get a (ptr_records s)) as [[|c r]|]; done.
Qed.

Lemma write_rfc2317_loop fd cfd czone ipnet addrs ptr nc
    (fs : gmap string (list string)) old cold :
  fd ≠ cfd →
  fs !! fd = Some old →
  fs !! cfd = Some cold →
  (∀ a, a ∈ addrs → unscoped a = true) →
  for_each addrs (write_rfc2317_records fd cfd czone ipnet)
    {| ptr_records := ptr; namedconf_entries := nc; files := fs |} =
  (Return tt,
   {| ptr_records := ptr; namedconf_entries := nc;
      files :=
        <[cfd := cold ++ map (rfc2317_cname_line (network_reverse_pointer ipnet) czone)
                             (indexed_hosts ptr addrs)]>
          (<[fd := old ++ map (rfc2317_ptr_line czone) (indexed_hosts ptr addrs)]>
             fs) |}).
Proof.
  intros Hne. revert fs old cold.
  induction addrs as [|a addrs IH]; intros fs old cold Hfd Hcfd Hsc.
  - cbn [for_each indexed_hosts flat_map map]. unfold ret.
    rewrite !app_nil_r, (insert_id fs fd) by done. by rewrite insert_id.
  - cbn [for_each indexed_hosts flat_map].
    assert (Hrest : ∀ a', a' ∈ addrs → unscoped a' = true)
      by (intros a' Ha'; apply Hsc; by right).
    destruct (dict_get a ptr) as [[|c r]|] eqn:Hget.
    + erewrite bind_Return
        by (apply write_rfc2317_records_miss; cbn [ptr_records]; by rewrite Hget).
      by apply IH.
    + erewrite bind_Return
        by (apply write_rfc2317_records_hit; [apply Hsc; by left | done]).
      rewrite (with_line_insert fd _ fs old) by done.
      rewrite (with_line_insert cfd _ _ cold) by by rewrite lookup_insert_ne.
      erewrite IH; [| |apply lookup_insert_eq|done].
      2:{ rewrite lookup_insert_ne by done. apply lookup_insert_eq. }
      fold (indexed_hosts ptr addrs). cbn [app map].
      rewrite (insert_insert_ne _ fd cfd) by done.
      rewrite (insert_insert_eq _ fd).
      rewrite (insert_insert_eq _ cfd).
      by rewrite <- !app_assoc.
    + erewrite bind_Return
        by (apply write_rfc2317_records_miss; cbn [ptr_records]; by rewrite Hget).
      by apply IH.
Qed.

(** The IPv4 netmask of a prefix length. *)
Definition netmask4 (p : Z) : Z := _ip_int_from_prefix 4 p.

Lemma supernet_mask_check p :
  0 ≤ p < 33 →
  Z.land (Z.ones 32) (Z.shiftl (netmask4 p) (p - p / 8 * 8)) = netmask4 (p / 8 * 8).
Proof.
  intros Hp. apply Z.eqb_eq.
  apply (Z_range_forallb
           (λ p, Z.land (Z.ones 32) (Z.shiftl (netmask4 p) (p - p / 8 * 8))
                 =? netmask4 (p / 8 * 8)) 33); [vm_compute; reflexivity | lia].
Qed.

Lemma netmask4_32bit p : 0 ≤ p < 33 → Z.land (netmask4 p) (Z.ones 32) = netmask4 p.
Proof.
  intros Hp. apply Z.eqb_eq.
  apply (Z_range_forallb
           (λ p, Z.land (netmask4 p) (Z.ones 32) =? netmask4 p) 33);
    [vm_compute; reflexivity | lia].
Qed.

Lemma land_ones32 ip : 0 ≤ ip < 2 ^ 32 → Z.land ip (Z.ones 32) = ip.
Proof. intros Hip. rewrite Z.land_ones by lia. by apply Z.mod_small. Qed.

Lemma masked_range ip p : 0 ≤ ip → 0 ≤ p < 33 → 0 ≤ Z.land ip (netmask4 p) < 2 ^ 32.
Proof.
  intros Hip Hp. split; [apply Z.land_nonneg; by left|].
  rewrite <- (netmask4_32bit p Hp), Z.land_assoc, Z.land_ones by lia.
  apply Z.mod_pos_bound. lia.
Qed.

(** The supernet [write_ptr4_zone] asks for exists: the block's address
    cut to the prefix length rounded down to a multiple of 8. *)
Lemma supernet_classful n ip :
  wf_network4 n ip →
  prefixlen n mod 8 ≠ 0 →
  supernet n (prefixlen n / 8 * 8) =
  Return (Network (IPv4Address (Z.land ip (netmask4 (prefixlen n / 8 * 8))))
                  (IPv4Address (netmask4 (prefixlen n / 8 * 8)))
                  (prefixlen n / 8 * 8)).
Proof.
  intros [Hna Hip Hp Hnm Hstrict] Halign. destruct n as [na nm p].
  cbn [network_address netmask prefixlen] in *. subst na nm.
  set (q := p / 8 * 8).
  assert (Hq : 0 ≤ q < p).
  { subst q. pose proof (Z.mod_pos_bound p 8 ltac:(lia)).
    pose proof (Z.div_mod p 8 ltac:(lia)). lia. }
  unfold supernet. cbn [network_address netmask prefixlen int].
  destruct (Z.eqb_spec p 0); [lia|].
  destruct (Z.ltb_spec p q); [lia|].
  replace (p - (p - q)) with q by lia.
  destruct (Z.ltb_spec q 0); [lia|].
  fold (netmask4 p).
  assert (Haddr : Z.land ip (Z.shiftl (netmask4 p) (p - q)) = Z.land ip (netmask4 q)).
  { rewrite <- (land_ones32 ip Hip) at 1. rewrite <- Z.land_assoc.
    subst q. by rewrite supernet_mask_check by lia. }
  rewrite Haddr. pose proof (masked_range ip q ltac:(lia) ltac:(lia)) as Hrange.
  unfold IPv4Network_of_tuple. change (ALL_ONES 4) with (2 ^ 32 - 1).
  destruct (Z.ltb_spec (Z.land ip (netmask4 q)) 0); [lia|].
  destruct (Z.ltb_spec (2 ^ 32 - 1) (Z.land ip (netmask4 q))); [lia|].
  cbn [orb]. unfold _make_netmask. change (max_prefixlen 4) with 32.
  destruct (Z.leb_spec 0 q); [|lia]. destruct (Z.leb_spec q 32); [|lia].
  cbn [andb negb obind]. change (4 =? 4) with true. cbv iota.
  unfold _strict. cbn [fst snd int]. fold (netmask4 q).
  rewrite <- Z.land_assoc, Z.land_diag, Z.eqb_refl. reflexivity.
Qed.

(** *** Where zone files go *)

(** The directory part [os.path.join] puts before a relative file name. *)
Definition dir_prefix (dir : string) : string :=
  if String.eqb dir "" || endswith dir "/" then dir else dir +:+ "/".

Lemma zone_fname_no_slash zonename : contains "/" (zone_fname zonename) = false.
Proof.
  unfold zone_fname. rewrite contains_app.
  by rewrite contains_replace_old.
Qed.

Lemma zone_path_form g zonename :
  zone_path g zonename = dir_prefix (out_dir g) +:+ zone_fname zonename.
Proof.
  unfold zone_path, path_join, dir_prefix.
  destruct (startswith (zone_fname zonename) "/") eqn:Hstart.
  - apply startswith_contains in Hstart.
    by rewrite zone_fname_no_slash in Hstart.
  - destruct (String.eqb (out_dir g) "" || endswith (out_dir g) "/"); [done|].
    by rewrite app_assoc_str.
Qed.

Lemma zone_path_inj g z1 z2 :
  zone_path g z1 = zone_path g z2 → zone_fname z1 = zone_fname z2.
Proof. rewrite !zone_path_form. apply String.app_inj. Qed.

(** *** The two zone names of an RFC 2317 block are different *)

Lemma pointer_name4_plain ip c :
  c = "/"%char ∨ c = "_"%char → contains c (pointer_name (IPv4Address ip)) = false.
Proof.
  intros Hc. rewrite pointer_name4_form, !contains_app.
  assert (Ho : ∀ x, contains c (str (Z.land x 255)) = false).
  { intros x. pose proof (str_small_plain _ (octet_range x)) as Hplain.
    destruct Hc as [-> | ->];
      [by apply plain_text_slash | by apply plain_text_underscore]. }
  unfold octet1, octet2, octet3, octet4. rewrite !Ho.
  by destruct Hc as [-> | ->].
Qed.

Lemma classful_fname_plain ip :
  contains "_" (zone_fname (lstrip "0." (pointer_name (IPv4Address ip)))) = false.
Proof.
  set (z := lstrip "0." _).
  assert (Hz : ∀ c, c = "/"%char ∨ c = "_"%char → contains c z = false).
  { intros c Hc. destruct (contains c z) eqn:Hcz; [|done].
    apply contains_lstrip in Hcz. by rewrite pointer_name4_plain in Hcz. }
  unfold zone_fname. rewrite replace_absent by (apply Hz; by left).
  rewrite contains_app, Hz by by right. done.
Qed.

Lemma delegated_name_slash ip mask p :
  0 ≤ p < 256 →
  contains "/" (network_reverse_pointer (Network (IPv4Address ip) mask p)) = true.
Proof.
  intros Hp. rewrite network_reverse_pointer_form by done.
  rewrite !contains_app. cbn [contains Ascii.eqb Bool.eqb]. 
  by rewrite orb_true_r.
Qed.

Lemma delegated_fname_underscore ip mask p :
  0 ≤ p < 256 →
  contains "_" (zone_fname (network_reverse_pointer
                              (Network (IPv4Address ip) mask p))) = true.
Proof.
  intros Hp. unfold zone_fname. rewrite contains_app.
  by rewrite contains_replace_new by by apply delegated_name_slash.
Qed.

Lemma hosts4_unscoped n ip a :
  network_address n = IPv4Address ip → a ∈ ipaddress.hosts n →
  unscoped a = true.
Proof.
  intros Hna. unfold ipaddress.hosts. rewrite Hna.
  destruct (prefixlen n =? IPV4LENGTH - 1);
    [|destruct (prefixlen n =? IPV4LENGTH)].
  - intros Ha. apply list_elem_of_fmap in Ha as (z & -> & _). done.
  - intros Ha. by apply list_elem_of_singleton in Ha as ->.
  - intros Ha. apply list_elem_of_fmap in Ha as (z & -> & _). done.
Qed.

(** An IPv4 block whose prefix length is not a multiple of 8 gives two
    zones with different names and different files: the delegated zone,
    named by the block's own reverse pointer, and the classful zone, named
    from the block's address cut to the prefix length rounded down to a
    multiple of 8.  [write_ptr4_zone] returns (its [assert] holds and the
    supernet exists), registers both names, and for the hosts of the block
    with a non-empty index entry, in address order, writes a PTR line to
    the delegated zone and to the classful zone a CNAME line with the same
    owner whose target is the owner, a dot, the delegated zone's name and a
    final dot.  The index is not changed. *)
Theorem write_ptr4_zone_rfc2317 g netblock ipnet s :
  IPv4Network netblock = Return ipnet →
  prefixlen ipnet mod 8 ≠ 0 →
  let zonename := network_reverse_pointer ipnet in
  let classful_prefixlen := prefixlen ipnet / 8 * 8 in
  let classful_address :=
    IPv4Address (Z.land (int (network_address ipnet)) (netmask4 classful_prefixlen)) in
  let classful_zonename := lstrip "0." (pointer_name classful_address) in
  let hits := indexed_hosts (ptr_records s) (ipaddress.hosts ipnet) in
  zonename ≠ classful_zonename ∧
  zone_path g zonename ≠ zone_path g classful_zonename ∧
  write_ptr4_zone g netblock s =
  (Return tt,
   {| ptr_records := ptr_records s;
      namedconf_entries :=
        dict_set classful_zonename (zone_fname classful_zonename)
          (dict_set zonename (zone_fname zonename) (namedconf_entries s));
      files :=
        <[zone_path g classful_zonename :=
            zone_header g classful_zonename
            :: map (rfc2317_cname_line zonename classful_zonename) hits]>
          (<[zone_path g zonename :=
               zone_header g zonename
               :: map (rfc2317_ptr_line classful_zonename) hits]> (files s)) |}).
Proof.
  intros Hparse Halign zonename q caddr czone hits.
  destruct (IPv4Network_wf _ _ Hparse) as [ip Hwf].
  pose proof (supernet_classful _ _ Hwf Halign) as Hsuper.
  pose proof Hwf as [Hna Hip Hp Hnm Hstrict].
  destruct ipnet as [na nm p]. cbn [network_address netmask prefixlen] in *.
  subst na nm. cbn [int] in *.
  assert (Hfname : zone_fname zonename ≠ zone_fname czone).
  { intros Heq.
    pose proof (delegated_fname_underscore ip (IPv4Address (_ip_int_from_prefix 4 p))
                  p ltac:(lia)) as H1.
    fold zonename in H1. rewrite Heq in H1. subst czone caddr.
    by rewrite classful_fname_plain in H1. }
  assert (Hpath : zone_path g zonename ≠ zone_path g czone).
  { intros Heq. by apply Hfname, (zone_path_inj g). }
  split; [intros Heq; apply Hfname; by rewrite Heq|]. split; [done|].
  unfold write_ptr4_zone. rewrite (lift_Return _ _ _ _ Hparse).
  cbn [prefixlen]. destruct (Z.eqb_spec (p mod 8) 0); [done|].
  fold zonename. erewrite bind_Return by apply get_zone_file_run.
  fold q. assert (Hq : q < p).
  { subst q. pose proof (Z.mod_pos_bound p 8 ltac:(lia)).
    pose proof (Z.div_mod p 8 ltac:(lia)). lia. }
  destruct (Z.ltb_spec q p); [|lia]. cbn [negb].
  fold q in Hsuper. rewrite (lift_Return _ _ _ _ Hsuper).
  cbn [network_address].
  rewrite (lift_Return _ _ _ _ (stripped_reverse_pointer4 _)).
  fold caddr. fold czone.
  erewrite bind_Return by apply get_zone_file_run.
  cbn [ptr_records namedconf_entries files].
  rewrite (write_rfc2317_loop _ _ _ _ _ _ _ _
             [zone_header g zonename] [zone_header g czone]).
  - fold zonename hits. cbn [app].
    rewrite (insert_insert_ne _ (zone_path g zonename) (zone_path g czone))
      by done.
    rewrite (insert_insert_eq _ (zone_path g zonename)).
    by rewrite (insert_insert_eq _ (zone_path g czone)).
  - done.
  - rewrite lookup_insert_ne by done. apply lookup_insert_eq.
  - apply lookup_insert_eq.
  - intros a. by apply (hosts4_unscoped _ ip).
Qed.

Lemma write_ptr4_zone_rfc2317_witness :
  let r := write_ptr4_zone rfc2317_settings "172.20.229.112/28"
             {| ptr_records := [(IPv4Address 2887050609, "gw.example.dn42")];
                namedconf_entries := []; files := ∅ |} in
  r.1 = Return tt ∧
  files r.2 !! zone_path rfc2317_settings "112/28.229.20.172.in-addr.arpa" =
    Some [zone_header rfc2317_settings "112/28.229.20.172.in-addr.arpa";
          "113 IN PTR gw.example.dn42." +:+ nl] ∧
  files r.2 !! zone_path rfc2317_settings "229.20.172.in-addr.arpa" =
    Some [zone_header rfc2317_settings "229.20.172.in-addr.arpa";
          "113 IN CNAME 113.112/28.229.20.172.in-addr.arpa." +:+ nl].
Proof.
  intros r.
  assert (Hparse : IPv4Network "172.20.229.112/28" =
                   Return (Network (IPv4Address 2887050608)
                                   (IPv4Address 4294967280) 28))
    by reflexivity.
  destruct (write_ptr4_zone_rfc2317 rfc2317_settings _ _
              {| ptr_records := [(IPv4Address 2887050609, "gw.example.dn42")];
                 namedconf_entries := []; files := ∅ |} Hparse)
    as (_ & _ & Hrun); [vm_compute; discriminate|].
  subst r. rewrite Hrun. vm_compute. repeat split.
Defined.

(** ** IPv6 blocks *)

Lemma stripped_reverse_pointer_unscoped a :
  unscoped a = true →
  stripped_reverse_pointer a = Return (lstrip "0." (pointer_name a)).
Proof.
  intros Ha. unfold stripped_reverse_pointer.
  by rewrite (reverse_pointer_unscoped a Ha).
Qed.

(** An IPv6 block gives one zone, named
    [network_address.reverse_pointer.lstrip('0.')]: when neither the block
    nor an index entry inside it carries a scope id, [write_ptr6_zone]
    returns, registers that name and writes the header followed by one PTR
    line for each index entry inside the block and for no other, in the
    order in which the index holds them (the order of first insertion, not
    the order of the addresses).  The index is not changed. *)
Theorem write_ptr6_zone_run g netblock ipnet s :
  IPv6Network netblock = Return ipnet →
  unscoped (network_address ipnet) = true →
  (∀ entry, entry ∈ entriesWithin (ptr_records s) ipnet → unscoped entry.1 = true) →
  write_ptr6_zone g netblock s =
  (Return tt,
   ptr_zone_written g (lstrip "0." (pointer_name (network_address ipnet)))
                    ipnet s).
Proof.
  intros Hparse Hna Hsc. unfold write_ptr6_zone.
  rewrite (lift_Return _ _ _ _ Hparse).
  rewrite (lift_Return _ _ _ _ (stripped_reverse_pointer_unscoped _ Hna)).
  by apply _write_ptr_zone_run.
Qed.

Lemma unscoped_forallb (entries : list (ipaddr * string)) :
  forallb (λ entry, unscoped entry.1) entries = true →
  ∀ entry, entry ∈ entries → unscoped entry.1 = true.
Proof.
  intros Hall entry Hin. rewrite forallb_forall in Hall.
  by apply Hall, list_elem_of_In.
Qed.

Definition ip6_order_settings : settings :=
  {| argv0 := "scripts/make-dns-records.py";
     out_dir := "global-config/dns-zones/";
     dns_ttl := "3600";
     dns_nameserver_prefix := "ns1";
     dns_domain := "example.dn42";
     dns_zones_dir := "/etc/bind/zones";
     hosts := [];
     dns_records :=
       [("example.dn42",
         [("b", [("type", "ansible_host_record");
                 ("ip4", "172.20.229.2"); ("ip6", "fd00::2")]);
          ("a", [("type", "ansible_host_record");
                 ("ip4", "172.20.229.1"); ("ip6", "fd00::1")])])];
     ownnets4 := [];
     ownnets6 := ["fd00::/8"] |}.

Lemma write_ptr6_zone_run_witness :
  let s := (write_forward_zone ip6_order_settings "example.dn42"
              [("b", [("type", "ansible_host_record");
                      ("ip4", "172.20.229.2"); ("ip6", "fd00::2")]);
               ("a", [("type", "ansible_host_record");
                      ("ip4", "172.20.229.1"); ("ip6", "fd00::1")])]
              initial_state).2 in
  let r := write_ptr6_zone ip6_order_settings "fd00::/8" s in
  r.1 = Return tt ∧
  files r.2 !! zone_path ip6_order_settings "d.f.ip6.arpa" =
    Some [zone_header ip6_order_settings "d.f.ip6.arpa";
          "2.0.0.0.0.0.0.0.0.0.0.0.0.0.0.0.0.0.0.0.0.0.0.0.0.0.0.0.0.0.d.f.ip6.arpa IN PTR b.example.dn42." +:+ nl;
          "1.0.0.0.0.0.0.0.0.0.0.0.0.0.0.0.0.0.0.0.0.0.0.0.0.0.0.0.0.0.d.f.ip6.arpa IN PTR a.example.dn42." +:+ nl].
Proof.
  intros s r.
  assert (Hparse : IPv6Network "fd00::/8" =
            Return (Network (IPv6Address 336294682933583715844663186250927177728 None)
                            (IPv6Address 338953138925153547590470800371487866880 None)
                            8)) by reflexivity.
  assert (Hrun := write_ptr6_zone_run ip6_order_settings _ _ s Hparse eq_refl).
  subst r. rewrite Hrun.
  - vm_compute. split; reflexivity.
  - apply unscoped_forallb. vm_compute. reflexivity.
Defined.

(** A scope id on an indexed address inside the block stops
    [_write_ptr_zone]: [reverse_pointer] raises on it.  The zone is by then
    registered and its file holds the header and the lines of the entries
    before that address; nothing after it is written. *)
Theorem _write_ptr_zone_scoped_address g zonename ipnet s before ip scope c rest after :
  ptr_records s = before ++ (IPv6Address ip (Some (String c scope)), rest) :: after →
  contains_address ipnet (IPv6Address ip (Some (String c scope))) = true →
  (∀ entry, entry ∈ entriesWithin before ipnet → unscoped entry.1 = true) →
  _write_ptr_zone g zonename ipnet s =
  (Raise (AddressValueError (String c scope)),
   {| ptr_records := ptr_records s;
      namedconf_entries :=
        dict_set zonename (zone_fname zonename) (namedconf_entries s);
      files :=
        <[zone_path g zonename :=
            zone_header g zonename :: map ptr_line (entriesWithin before ipnet)]>
          (files s) |}).
Proof.
  intros Hindex Hin Hsc. unfold _write_ptr_zone.
  erewrite bind_Return by apply get_zone_file_run.
  erewrite bind_Return by reflexivity.
  cbn [ptr_records]. rewrite Hindex.
  erewrite for_each_app.
  2:{ apply (write_ptr_records_run _ _ _ _ _ _ [zone_header g zonename]);
        [apply lookup_insert_eq | done]. }
  cbn [for_each]. erewrite bind_Raise.
  2:{ unfold write_ptr_record. rewrite Hin. reflexivity. }
  by rewrite insert_insert_eq.
Qed.

Lemma _write_ptr_zone_scoped_address_witness :
  let scoped := IPv6Address 338288524927261089654018896841347694593 (Some "eth0") in
  let s := {| ptr_records := [(gw_ip6, "gw.example.dn42");
                              (scoped, "lan.example.dn42")];
              namedconf_entries := []; files := ∅ |} in
  ip_address "fe80::1%eth0" = Return scoped ∧
  (_write_ptr_zone example_settings "ip6.arpa"
     (Network (IPv6Address 0 None) (IPv6Address 0 None) 0) s).1
  = Raise (AddressValueError "eth0").
Proof.
  intros scoped s. split; [reflexivity|].
  rewrite (_write_ptr_zone_scoped_address example_settings "ip6.arpa"
             (Network (IPv6Address 0 None) (IPv6Address 0 None) 0) s
             [(gw_ip6, "gw.example.dn42")]
             338288524927261089654018896841347694593
             "th0" "e" "lan.example.dn42" []);
    [reflexivity | reflexivity | reflexivity |].
  apply unscoped_forallb. vm_compute. reflexivity.
Defined.

(** ** What the passes keep *)

(** [m] keeps [P]: whatever state [m] ends in, returning or raising, [P]
    still holds. *)
Definition keeps {A} (P : state → Prop) (m : M state A) : Prop :=
  ∀ s, P s → P (m s).2.

Lemma keeps_ret {A} P (a : A) : keeps P (ret a).
Proof. by intros s. Qed.

Lemma keeps_raise {A} P e : keeps P (raise e : M state A).
Proof. by intros s. Qed.

Lemma keeps_lift {A} P (r : outcome A) : keeps P (lift r).
Proof. by intros s. Qed.

Lemma keeps_bind {A B} P (m : M state A) (k : A → M state B) :
  keeps P m → (∀ a, keeps P (k a)) → keeps P (bind m k).
Proof.
  intros Hm Hk s Hs. unfold bind. specialize (Hm s Hs).
  destruct (m s) as [[a|e] s1]; [by apply Hk | done].
Qed.

Lemma keeps_for_each {A} P (xs : list A) (body : A → M state unit) :
  (∀ x, keeps P (body x)) → keeps P (for_each xs body).
Proof.
  intros Hbody. induction xs as [|x xs IH]; [apply keeps_ret|].
  cbn [for_each]. apply keeps_bind; [apply Hbody | done].
Qed.

Lemma keeps_if {A} P (b : bool) (m1 m2 : M state A) :
  keeps P m1 → keeps P m2 → keeps P (if b then m1 else m2).
Proof. by destruct b. Qed.

Lemma keeps_get_zone_file P g zonename :
  (∀ s, P s →
        P {| ptr_records := ptr_records s;
             namedconf_entries :=
               dict_set zonename (zone_fname zonename) (namedconf_entries s);
             files := <[zone_path g zonename := [zone_header g zonename]]> (files s) |}) →
  keeps P (get_zone_file g zonename).
Proof. intros H s Hs. rewrite get_zone_file_run. by apply H. Qed.

Lemma keeps_write_entry_plain P fd name rtype data :
  (∀ s line, P s →
        P {| ptr_records := ptr_records s;
             namedconf_entries := namedconf_entries s;
             files := with_line fd line (files s) |}) →
  keeps P (_write_entry fd name rtype data None).
Proof. intros H s Hs. rewrite _write_entry_plain. by apply H. Qed.

(** *** The reverse pass only reads the PTR index *)

Definition same_index (index : list (ipaddr * string)) (s : state) : Prop :=
  ptr_records s = index.

Lemma keeps_index_write_ptr_zone index g zonename ipnet :
  keeps (same_index index) (_write_ptr_zone g zonename ipnet).
Proof.
  unfold _write_ptr_zone. apply keeps_bind; [by apply keeps_get_zone_file|].
  intros fd. apply keeps_bind; [by intros s|]. intros items.
  apply keeps_for_each. intros [a record]. unfold write_ptr_record.
  apply keeps_if; [|apply keeps_ret].
  apply keeps_bind; [apply keeps_lift|]. intros name.
  by apply keeps_write_entry_plain.
Qed.

Lemma keeps_index_write_ptr4_zone index g netblock :
  keeps (same_index index) (write_ptr4_zone g netblock).
Proof.
  unfold write_ptr4_zone. apply keeps_bind; [apply keeps_lift|]. intros ipnet.
  apply keeps_if.
  - apply keeps_bind; [apply keeps_lift|]. intros zonename.
    apply keeps_index_write_ptr_zone.
  - apply keeps_bind; [by apply keeps_get_zone_file|]. intros fd.
    apply keeps_if; [apply keeps_raise|].
    apply keeps_bind; [apply keeps_lift|]. intros classful.
    apply keeps_bind; [apply keeps_lift|]. intros classful_zonename.
    apply keeps_bind; [by apply keeps_get_zone_file|]. intros classful_fd.
    apply keeps_for_each. intros a. unfold write_rfc2317_records.
    apply keeps_bind; [by intros s|]. intros ptrs.
    destruct (dict_get a ptrs) as [[|c r]|]; try apply keeps_ret.
    apply keeps_bind; [apply keeps_lift|]. intros rp.
    apply keeps_bind; [|intros _]; by apply keeps_write_entry_plain.
Qed.

Lemma keeps_index_write_ptr6_zone index g netblock :
  keeps (same_index index) (write_ptr6_zone g netblock).
Proof.
  unfold write_ptr6_zone. apply keeps_bind; [apply keeps_lift|]. intros ipnet.
  apply keeps_bind; [apply keeps_lift|]. intros zonename.
  apply keeps_index_write_ptr_zone.
Qed.

Lemma keeps_index_write_named_conf index g :
  keeps (same_index index) (write_named_conf g).
Proof. intros s Hs. by rewrite write_named_conf_run. Qed.

(** The two halves of [main]. *)
Definition forward_pass (g : settings) : M state unit :=
  for_each (dns_records g) (λ item, write_forward_zone g item.1 item.2).

Definition reverse_pass (g : settings) : M state unit :=
  for_each (ownnets4 g) (write_ptr4_zone g) ;;;
  for_each (ownnets6 g) (write_ptr6_zone g) ;;;
  write_named_conf g.

Lemma main_passes g : main g = bind (forward_pass g) (λ _, reverse_pass g).
Proof. reflexivity. Qed.

(** The reverse zone builders and [write_named_conf] never change the PTR
    index, whatever the blocks are and whether they return or raise: when
    [main] ends, the index is the one the forward pass left. *)
Theorem main_ptr_index_is_forward_index g s :
  ptr_records (main g s).2 = ptr_records (forward_pass g s).2 ∧
  (∀ netblock, ptr_records (write_ptr4_zone g netblock s).2 = ptr_records s) ∧
  (∀ netblock, ptr_records (write_ptr6_zone g netblock s).2 = ptr_records s).
Proof.
  split; [|split].
  - rewrite main_passes. unfold bind at 1.
    destruct (forward_pass g s) as [[[]|e] s1]; [|done]. cbn [snd].
    assert (Hk : keeps (same_index (ptr_records s1)) (reverse_pass g)).
    { unfold reverse_pass.
      apply keeps_bind;
        [apply keeps_for_each, keeps_index_write_ptr4_zone|]. intros _.
      apply keeps_bind;
        [apply keeps_for_each, keeps_index_write_ptr6_zone|]. intros _.
      apply keeps_index_write_named_conf. }
    by apply Hk.
  - intros netblock. by apply (keeps_index_write_ptr4_zone (ptr_records s)).
  - intros netblock. by apply (keeps_index_write_ptr6_zone (ptr_records s)).
Qed.

(** *** Every registered zone has its file *)














(** When [main] returns, the registration file holds the options stanza
    and then one zone stanza for each registry entry, in the registry's
    order. *)
Theorem main_returns_with_registration_file g s s' :
  main g s = (Return tt, s') →
  files s' !! named_conf_path =
    Some (options_stanza g :: map zone_stanza (namedconf_entries s')).
Proof.
  unfold main, bind.
  destruct (for_each (dns_records g) _ s) as [[[]|e1] s1]; [|done].
  destruct (for_each (ownnets4 g) _ s1) as [[[]|e2] s2]; [|done].
  destruct (for_each (ownnets6 g) _ s2) as [[[]|e3] s3]; [|done].
  rewrite write_named_conf_run. intros [= <-].
  cbn [files namedconf_entries]. apply lookup_insert_eq.
Qed.

Lemma main_returns_with_registration_file_witness :
  length <$> files (main example_settings initial_state).2 !! named_conf_path
  = Some 3%nat.
Proof.
  rewrite (main_returns_with_registration_file example_settings initial_state
             (main example_settings initial_state).2) by reflexivity.
  reflexivity.
Defined.

(** ** More on zone files and record lines *)


Lemma replace_idempotent (s : string) :
  replace "/" "_" (replace "/" "_" s) = replace "/" "_" s.
Proof. apply replace_absent. by apply contains_replace_old. Qed.

Lemma replace_changes (s : string) :
  contains "/" s = true → replace "/" "_" s ≠ s.
Proof.
  intros Hs Heq. rewrite <- Heq in Hs.
  by rewrite contains_replace_old in Hs.
Qed.

(** Zone names that differ only in [/] against [_] share one zone file:
    for a name with a slash, the name with underscores instead is another
    registry key with the same file, so creating the one zone after the
    other leaves two registry entries and the second zone's header in the
    one file. *)
Theorem zone_file_name_collision g zonename s :
  contains "/" zonename = true →
  let other := replace "/" "_" zonename in
  let r := (_ <- get_zone_file g zonename ;; get_zone_file g other) s in
  other ≠ zonename ∧
  zone_path g other = zone_path g zonename ∧
  dict_get zonename (namedconf_entries r.2) = Some (zone_fname zonename) ∧
  dict_get other (namedconf_entries r.2) = Some (zone_fname zonename) ∧
  files r.2 !! zone_path g zonename = Some [zone_header g other].
Proof.
  intros Hslash other r.
  assert (Hne : other ≠ zonename) by by apply replace_changes.
  assert (Hfname : zone_fname other = zone_fname zonename).
  { unfold zone_fname, other. by rewrite replace_idempotent. }
  assert (Hpath : zone_path g other = zone_path g zonename).
  { by rewrite !zone_path_form, Hfname. }
  subst r. erewrite bind_Return by apply get_zone_file_run.
  rewrite get_zone_file_run. cbn [snd namedconf_entries files].
  split; [done|]. split; [done|].
  rewrite dict_get_set_ne, !dict_get_set_eq, Hfname, Hpath by done.
  by rewrite lookup_insert_eq.
Qed.

Lemma zone_file_name_collision_witness :
  zone_path example_settings "112_28.229.20.172.in-addr.arpa"
  = zone_path example_settings "112/28.229.20.172.in-addr.arpa".
Proof.
  apply (zone_file_name_collision example_settings
           "112/28.229.20.172.in-addr.arpa" initial_state eq_refl).
Defined.

Lemma upper_char_idempotent c : upper_char (upper_char c) = upper_char c.
Proof. destruct c as [[] [] [] [] [] [] [] []]; reflexivity. Qed.

Lemma upper_idempotent s : upper (upper s) = upper s.
Proof.
  induction s as [|c s IH]; [done|]. simpl.
  by rewrite upper_char_idempotent, IH.
Qed.

(** [_write_entry] does not care about the case of the record type: the
    call with [rtype] and the call with [rtype.upper()] do the same, line
    written, outcome and PTR index alike. *)
Theorem write_entry_rtype_case fd name rtype data rd s :
  _write_entry fd name rtype data rd s = _write_entry fd name (upper rtype) data rd s.
Proof.
  destruct rd as [rd|].
  - by rewrite !_write_entry_linked, upper_idempotent.
  - by rewrite !_write_entry_plain, upper_idempotent.
Qed.




(** ** More on the forward pass *)

Lemma keeps_bind_lift {A B} P (r : outcome A) (k : A → M state B) :
  (∀ a, r = Return a → keeps P (k a)) → keeps P (bind (lift r) k).
Proof.
  intros Hk s Hs. unfold bind, lift. destruct r as [a|e]; [by apply Hk | done].
Qed.

(** Only host records and the inventory feed the PTR index: a forward zone
    that is not the primary domain and has no record of type
    [ansible_host_record] leaves the index as it was, whether
    [write_forward_zone] returns or raises. *)
Theorem forward_zone_without_host_records g domain records s :
  domain ≠ dns_domain g →
  (∀ name data, (name, data) ∈ records →
                getitem "type" data ≠ Return "ansible_host_record") →
  ptr_records (write_forward_zone g domain records s).2 = ptr_records s.
Proof.
  intros Hdomain Hrecords.
  assert (Hk : keeps (same_index (ptr_records s))
                     (write_forward_zone g domain records)); [|by apply Hk].
  unfold write_forward_zone.
  apply keeps_bind; [by apply keeps_get_zone_file|]. intros fd.
  apply keeps_bind.
  - induction records as [|[name data] records IH]; [apply keeps_ret|].
    cbn [for_each]. apply keeps_bind.
    + unfold write_forward_record. apply keeps_bind_lift. intros type Htype.
      destruct (String.eqb type "ansible_host_alias").
      { repeat (first [ by apply keeps_write_entry_plain
                      | apply keeps_bind; [|intros ?]
                      | apply keeps_lift ]). }
      destruct (String.eqb_spec type "ansible_host_record") as [->|_].
      { exfalso. apply (Hrecords name data); [by left | done]. }
      repeat (first [ by apply keeps_write_entry_plain
                    | apply keeps_bind; [|intros ?]
                    | apply keeps_lift ]).
    + intros _. apply IH. intros n d Hin. apply (Hrecords n d). by right.
  - intros _. destruct (String.eqb_spec domain (dns_domain g)); [done|].
    apply keeps_ret.
Qed.

Lemma forward_zone_without_host_records_witness :
  ptr_records
    (write_forward_zone example_settings "other.dn42"
       [("www", [("type", "cname"); ("target", "gw.example.dn42.")]);
        ("r1", [("type", "ansible_host_alias"); ("target", "missing")])]
       initial_state).2 = [].
Proof.
  apply (forward_zone_without_host_records example_settings "other.dn42"
           [("www", [("type", "cname"); ("target", "gw.example.dn42.")]);
            ("r1", [("type", "ansible_host_alias"); ("target", "missing")])]
           initial_state).
  - discriminate.
  - intros name data Hin.
    apply elem_of_cons in Hin as [[= -> ->]|Hin]; [discriminate|].
    apply elem_of_cons in Hin as [[= -> ->]|Hin]; [discriminate|].
    by apply elem_of_nil in Hin.
Defined.

(** A host alias that names a router missing from the inventory makes
    [write_forward_zone] raise [KeyError] with that name.  By then the zone
    is registered and its file holds the header (and whatever earlier
    records wrote); here the alias is the first record, so the file holds
    the header only, and the PTR index is untouched. *)
Theorem forward_zone_unknown_host g domain name data target rest s :
  getitem "type" data = Return "ansible_host_alias" →
  getitem "target" data = Return target →
  dict_get target (hosts g) = None →
  write_forward_zone g domain ((name, data) :: rest) s =
  (Raise (KeyError target),
   {| ptr_records := ptr_records s;
      namedconf_entries := dict_set domain (zone_fname domain) (namedconf_entries s);
      files := <[zone_path g domain := [zone_header g domain]]> (files s) |}).
Proof.
  intros Htype Htarget Hhost. unfold write_forward_zone.
  erewrite bind_Return by apply get_zone_file_run.
  erewrite bind_Raise; [done|]. cbn [for_each].
  erewrite bind_Raise; [done|]. unfold write_forward_record.
  rewrite (lift_Return _ _ _ _ Htype). cbn [String.eqb Ascii.eqb Bool.eqb].
  rewrite (lift_Return _ _ _ _ Htarget).
  apply lift_Raise. unfold getitem. by rewrite Hhost.
Qed.

Lemma forward_zone_unknown_host_witness :
  (write_forward_zone example_settings "example.dn42"
     [("r1", [("type", "ansible_host_alias"); ("target", "core1")])]
     initial_state).1 = Raise (KeyError "core1").
Proof.
  by rewrite (forward_zone_unknown_host example_settings "example.dn42" "r1"
                [("type", "ansible_host_alias"); ("target", "core1")] "core1" []
                initial_state).
Defined.

(** *** The inventory's records in the primary zone *)













(** *** The owner names of an RFC 2317 block *)

Lemma substring_start (a b : string) :
  String.substring 0 (String.length a) (a +:+ b) = a.
Proof.
  induction a as [|c a IH]; [by destruct b|].
  rewrite app_cons. simpl. by rewrite IH.
Qed.

Lemma slice_to_prefix (y x : string) :
  slice_to (y +:+ "." +:+ x)
           (Z.of_nat (String.length (y +:+ "." +:+ x))
            - Z.of_nat (String.length x) - 1) = y.
Proof.
  unfold slice_to. rewrite !length_app_str. cbn [String.length].
  set (k := Z.of_nat (String.length y + (1 + String.length x))
            - Z.of_nat (String.length x) - 1).
  assert (Hk : k = Z.of_nat (String.length y)) by lia.
  rewrite Hk. destruct (Z.ltb_spec (Z.of_nat (String.length y)) 0); [lia|].
  rewrite Z.min_l by lia. rewrite Nat2Z.id. apply substring_start.
Qed.

(** [x] stands in [full] right after a dot. *)
Definition dot_suffix (full x : string) : Prop :=
  ∃ y, full = y +:+ "." +:+ x.

Lemma dot_suffix_slice full x :
  dot_suffix full x →
  full = slice_to full (Z.of_nat (String.length full)
                        - Z.of_nat (String.length x) - 1) +:+ "." +:+ x.
Proof. intros [y ->]. by rewrite slice_to_prefix. Qed.

Lemma dot_suffix_lstrip_octet full o tail :
  0 ≤ o < 256 →
  dot_suffix full (str o +:+ "." +:+ tail) →
  dot_suffix full (lstrip "0." tail) →
  dot_suffix full (lstrip "0." (str o +:+ "." +:+ tail)).
Proof.
  intros Ho Hhere Hlater. destruct (Z.eq_dec o 0) as [->|Hne].
  - by rewrite lstrip_zero_octet.
  - rewrite lstrip_significant; [done | done |].
    apply str_octet_significant. lia.
Qed.

Lemma dot_suffix_more full a x :
  dot_suffix full (a +:+ "." +:+ x) → dot_suffix full x.
Proof.
  intros [y ->]. exists (y +:+ "." +:+ a). by rewrite !app_assoc_str.
Qed.

Lemma octet_of_masked z m k :
  Z.land (Z.shiftr (Z.land z m) k) 255 =
  Z.land (Z.shiftr z k) (Z.land (Z.shiftr m k) 255).
Proof. by rewrite Z.shiftr_land, Z.land_assoc. Qed.

Lemma octet4_of_masked z m : octet4 (Z.land z m) = Z.land z (Z.land m 255).
Proof. unfold octet4. by rewrite Z.land_assoc. Qed.

(** The reverse pointer of an address, cut at each octet. *)
Lemma pointer_name4_suffixes z :
  let full := pointer_name (IPv4Address z) in
  let t0 := "in-addr.arpa" in
  let t1 := str (octet1 z) +:+ "." +:+ t0 in
  let t2 := str (octet2 z) +:+ "." +:+ t1 in
  let t3 := str (octet3 z) +:+ "." +:+ t2 in
  dot_suffix full t3 ∧ dot_suffix full t2 ∧ dot_suffix full t1 ∧
  dot_suffix full t0.
Proof.
  intros full t0 t1 t2 t3.
  assert (H3 : dot_suffix full t3).
  { exists (str (octet4 z)). subst full. by rewrite pointer_name4_form. }
  assert (H2 : dot_suffix full t2) by by apply dot_suffix_more in H3.
  assert (H1 : dot_suffix full t1) by by apply dot_suffix_more in H2.
  assert (H0 : dot_suffix full t0) by by apply dot_suffix_more in H1.
  done.
Qed.

Ltac eval_mask_octets :=
  repeat match goal with
  | |- context [Z.land (Z.shiftr (netmask4 ?q) ?k) 255] =>
      let v := eval vm_compute in (Z.land (Z.shiftr (netmask4 q) k) 255) in
      change (Z.land (Z.shiftr (netmask4 q) k) 255) with v
  | |- context [Z.land (netmask4 ?q) 255] =>
      let v := eval vm_compute in (Z.land (netmask4 q) 255) in
      change (Z.land (netmask4 q) 255) with v
  end.

Lemma classful_name_dot_suffix z q :
  q = 0 ∨ q = 8 ∨ q = 16 ∨ q = 24 →
  dot_suffix (pointer_name (IPv4Address z))
             (lstrip "0." (pointer_name (IPv4Address (Z.land z (netmask4 q))))).
Proof.
  intros Hq. destruct (pointer_name4_suffixes z) as (H3 & H2 & H1 & H0).
  assert (Hbase : dot_suffix (pointer_name (IPv4Address z))
                             (lstrip "0." "in-addr.arpa")) by done.
  pose proof (dot_suffix_lstrip_octet _ (octet1 z) _ (octet_range _) H1 Hbase) as S1.
  pose proof (dot_suffix_lstrip_octet _ (octet2 z) _ (octet_range _) H2 S1) as S2.
  pose proof (dot_suffix_lstrip_octet _ (octet3 z) _ (octet_range _) H3 S2) as S3.
  rewrite (pointer_name4_form (Z.land z (netmask4 q))).
  rewrite octet4_of_masked. unfold octet3, octet2, octet1 in *.
  rewrite !octet_of_masked.
  destruct Hq as [Hq|[Hq|[Hq|Hq]]]; subst q; eval_mask_octets;
    rewrite ?Z.land_0_r, ?lstrip_zero_octet; done.
Qed.

(** In the RFC 2317 branch the owner name cut out of an address's reverse
    pointer, a dot and the classful zone name spell that reverse pointer
    again, for every address of the block: the CNAME in the classful zone
    sits at the address's own reverse name, also when [lstrip('0.')] took
    zero network octets off the zone name. *)
Theorem rfc2317_owner_spells_address netblock ipnet a :
  IPv4Network netblock = Return ipnet →
  prefixlen ipnet mod 8 ≠ 0 →
  contains_address ipnet a = true →
  let classful_address :=
    IPv4Address (Z.land (int (network_address ipnet))
                        (netmask4 (prefixlen ipnet / 8 * 8))) in
  let classful_zonename := lstrip "0." (pointer_name classful_address) in
  pointer_name a = relevant_octets classful_zonename a +:+ "." +:+ classful_zonename.
Proof.
  intros Hparse Halign Hin caddr czone.
  destruct (IPv4Network_wf _ _ Hparse) as [ip [Hna Hip Hp Hnm Hstrict]].
  unfold contains_address in Hin. rewrite Hna, Hnm in Hin.
  destruct a as [z|z sc]; [|done]. cbn [version int negb Z.eqb] in Hin.
  change (negb (4 =? 4)) with false in Hin. cbv iota in Hin.
  apply Z.eqb_eq in Hin. fold (netmask4 (prefixlen ipnet)) in Hin.
  set (p := prefixlen ipnet) in *. set (q := p / 8 * 8) in *.
  assert (Hq : q = 0 ∨ q = 8 ∨ q = 16 ∨ q = 24).
  { subst q. pose proof (Z.mod_pos_bound p 8 ltac:(lia)).
    pose proof (Z.div_mod p 8 ltac:(lia)). lia. }
  assert (Hmask : Z.land (netmask4 p) (netmask4 q) = netmask4 q).
  { apply Z.eqb_eq. subst q.
    apply (Z_range_forallb
             (λ p, Z.land (netmask4 p) (netmask4 (p / 8 * 8))
                   =? netmask4 (p / 8 * 8)) 33);
      [vm_compute; reflexivity | lia]. }
  assert (Hsame : Z.land ip (netmask4 q) = Z.land z (netmask4 q)).
  { by rewrite <- Hin, <- Z.land_assoc, Hmask. }
  unfold relevant_octets. apply dot_suffix_slice.
  subst czone caddr. rewrite Hna. cbn [int]. rewrite Hsame.
  by apply classful_name_dot_suffix.
Qed.

Lemma rfc2317_owner_spells_address_witness :
  pointer_name (IPv4Address 167772177) = "17.0.0" +:+ "." +:+ "10.in-addr.arpa".
Proof.
  apply (rfc2317_owner_spells_address "10.0.0.16/28"
           (Network (IPv4Address 167772176) (IPv4Address 4294967280) 28)
           (IPv4Address 167772177));
    [reflexivity | vm_compute; discriminate | reflexivity].
Defined.

(** *** Which addresses of an RFC 2317 block get records *)

(** An IPv4 address as [ip_address] builds them. *)
Definition valid4 (a : ipaddr) : Prop :=
  match a with
  | IPv4Address z => 0 ≤ z < 2 ^ 32
  | IPv6Address _ _ => False
  end.

Lemma hostmask4_ones p :
  0 ≤ p < 33 → Z.lxor (netmask4 p) (ALL_ONES 4) = Z.ones (32 - p).
Proof.
  intros Hp. apply Z.eqb_eq.
  apply (Z_range_forallb
           (λ p, Z.lxor (netmask4 p) (ALL_ONES 4) =? Z.ones (32 - p)) 33);
    [vm_compute; reflexivity | lia].
Qed.

Lemma netmask4_lor_hostmask p :
  0 ≤ p < 33 → Z.lor (netmask4 p) (Z.ones (32 - p)) = Z.ones 32.
Proof.
  intros Hp. apply Z.eqb_eq.
  apply (Z_range_forallb
           (λ p, Z.lor (netmask4 p) (Z.ones (32 - p)) =? Z.ones 32) 33);
    [vm_compute; reflexivity | lia].
Qed.

Lemma netmask4_land_hostmask p :
  0 ≤ p < 33 → Z.land (netmask4 p) (Z.ones (32 - p)) = 0.
Proof.
  intros Hp. apply Z.eqb_eq.
  apply (Z_range_forallb
           (λ p, Z.land (netmask4 p) (Z.ones (32 - p)) =? 0) 33);
    [vm_compute; reflexivity | lia].
Qed.

(** Masking with a netmask clears the host bits. *)
Lemma land_netmask4 z p :
  0 ≤ z < 2 ^ 32 → 0 ≤ p < 33 →
  Z.land z (netmask4 p) = z - z mod 2 ^ (32 - p).
Proof.
  intros Hz Hp.
  assert (Hsum : Z.land z (netmask4 p) + Z.land z (Z.ones (32 - p)) = z).
  { rewrite Z.add_nocarry_lor.
    - by rewrite <- Z.land_lor_distr_r, netmask4_lor_hostmask, land_ones32.
    - rewrite (Z.land_comm z (Z.ones _)), Z.land_assoc,
        <- (Z.land_assoc z), netmask4_land_hostmask by done.
      by rewrite Z.land_0_r, Z.land_0_l. }
  rewrite Z.land_ones in Hsum by lia. lia.
Qed.

Section Block.
Context (n : network) (ip : Z) (Hwf : wf_network4 n ip).

Let bsize := 2 ^ (32 - prefixlen n).

Lemma block_size_pos : 0 < bsize.
Proof. destruct Hwf. apply Z.pow_pos_nonneg; lia. Qed.

Lemma block_aligned : ip mod bsize = 0.
Proof.
  destruct Hwf as [_ Hip Hp _ Hstrict]. fold (netmask4 (prefixlen n)) in Hstrict.
  rewrite land_netmask4 in Hstrict by lia. fold bsize in Hstrict. lia.
Qed.

Lemma block_end : ip + bsize ≤ 2 ^ 32.
Proof.
  destruct Hwf as [_ Hip Hp _ _]. pose proof block_size_pos as HH.
  pose proof block_aligned as Ha.
  assert (Hpow : 2 ^ 32 = bsize * 2 ^ prefixlen n).
  { unfold bsize. rewrite <- Z.pow_add_r by lia. f_equal. lia. }
  apply Z.mod_divide in Ha as [k Hk]; [|lia].
  assert (k < 2 ^ prefixlen n) by nia. nia.
Qed.

Lemma broadcast_address4 : broadcast_address n = ip + bsize - 1.
Proof.
  destruct Hwf as [Hna Hip Hp Hnm _]. unfold broadcast_address, hostmask.
  rewrite Hna, Hnm. cbn [int version]. fold (netmask4 (prefixlen n)).
  rewrite hostmask4_ones by lia.
  rewrite <- Z.add_nocarry_lor.
  - rewrite Z.ones_equiv. fold bsize. lia.
  - rewrite Z.land_ones by lia. apply block_aligned.
Qed.

Lemma contains_address4 z :
  0 ≤ z < 2 ^ 32 →
  contains_address n (IPv4Address z) = true ↔ ip ≤ z ≤ broadcast_address n.
Proof.
  intros Hz. rewrite broadcast_address4.
  destruct Hwf as [Hna Hip Hp Hnm _]. unfold contains_address.
  rewrite Hna, Hnm. cbn [int version]. change (negb (4 =? 4)) with false.
  cbv iota. fold (netmask4 (prefixlen n)).
  rewrite land_netmask4 by lia. fold bsize.
  pose proof block_size_pos as HH. pose proof block_aligned as Ha.
  pose proof (Z.mod_pos_bound z bsize HH) as Hm.
  rewrite Z.eqb_eq. split; [lia|]. intros Hin.
  apply Z.mod_divide in Ha as [k Hk]; [|lia].
  assert (Hmod : z mod bsize = z - ip).
  { symmetry. apply (Z.mod_unique_pos z bsize k); lia. }
  lia.
Qed.

Lemma hosts4_spec a :
  prefixlen n ≠ 32 →
  a ∈ ipaddress.hosts n ↔
  valid4 a ∧ contains_address n a = true ∧
  (prefixlen n < 31 →
   a ≠ network_address n ∧ a ≠ IPv4Address (broadcast_address n)).
Proof.
  intros Hp32. pose proof block_end as Hend. pose proof block_size_pos as HH.
  pose proof broadcast_address4 as Hb.
  pose proof Hwf as [Hna Hip Hp Hnm _].
  unfold ipaddress.hosts. rewrite Hna. cbn [int].
  change (IPV4LENGTH - 1) with 31. change IPV4LENGTH with 32.
  destruct (Z.eqb_spec (prefixlen n) 31) as [H31|H31];
    [|destruct (Z.eqb_spec (prefixlen n) 32); [done|]].
  - rewrite list_elem_of_fmap. unfold range. split.
    + intros (z & -> & Hz%elem_of_seqZ). cbn [valid4].
      assert (0 ≤ z < 2 ^ 32) by lia.
      split; [done|]. split; [apply contains_address4; lia | lia].
    + intros (Hv & Hin & _). destruct a as [z|]; [|done]. cbn [valid4] in Hv.
      apply contains_address4 in Hin; [|done].
      exists z. split; [done|]. apply elem_of_seqZ. lia.
  - rewrite list_elem_of_fmap. unfold range. split.
    + intros (z & -> & Hz%elem_of_seqZ). cbn [valid4].
      assert (0 ≤ z < 2 ^ 32) by lia.
      split; [done|]. split; [apply contains_address4; lia|].
      intros _. split; intros [= ?]; lia.
    + intros (Hv & Hin & Hends). destruct a as [z|]; [|done]. cbn [valid4] in Hv.
      apply contains_address4 in Hin; [|done].
      destruct Hends as [Hne1 Hne2]; [lia|].
      exists z. split; [done|]. apply elem_of_seqZ.
      assert (z ≠ ip) by (intros ->; done).
      assert (z ≠ broadcast_address n) by (intros ->; done). lia.
Qed.

End Block.

Lemma elem_of_indexed_hosts index addrs a record :
  (a, record) ∈ indexed_hosts index addrs ↔
  a ∈ addrs ∧ dict_get a index = Some record ∧ record ≠ "".
Proof.
  unfold indexed_hosts. rewrite list_elem_of_In, in_flat_map. split.
  - intros (x & Hx%list_elem_of_In & Hin).
    destruct (dict_get x index) as [[|c r]|] eqn:Hget; try done.
    destruct Hin as [[= <- <-]|[]]. done.
  - intros (Ha & Hget & Hne). exists a. split; [by apply list_elem_of_In|].
    rewrite Hget. destruct record as [|c r]; [done|]. by left.
Qed.

(** The addresses that get records in the RFC 2317 branch: the index
    entries with a non-empty name whose address is an IPv4 address of the
    block, except, for a block of four addresses or more, the block's
    first and last address, which get no PTR and no CNAME line even when
    the index holds them. *)
Theorem rfc2317_records_skip_block_ends netblock ipnet index a record :
  IPv4Network netblock = Return ipnet →
  prefixlen ipnet mod 8 ≠ 0 →
  (a, record) ∈ indexed_hosts index (ipaddress.hosts ipnet) ↔
  dict_get a index = Some record ∧ record ≠ "" ∧
  valid4 a ∧ contains_address ipnet a = true ∧
  (prefixlen ipnet < 31 →
   a ≠ network_address ipnet ∧ a ≠ IPv4Address (broadcast_address ipnet)).
Proof.
  intros Hparse Halign. destruct (IPv4Network_wf _ _ Hparse) as [ip Hwf].
  assert (Hp32 : prefixlen ipnet ≠ 32) by (intros Heq; by rewrite Heq in Halign).
  rewrite elem_of_indexed_hosts, (hosts4_spec ipnet ip Hwf a Hp32). tauto.
Qed.

Lemma rfc2317_records_skip_block_ends_witness :
  let index := [(IPv4Address 167772176, "net.example.dn42");
                (IPv4Address 167772177, "gw.example.dn42");
                (IPv4Address 167772191, "bcast.example.dn42")] in
  let ipnet := Network (IPv4Address 167772176) (IPv4Address 4294967280) 28 in
  (IPv4Address 167772177, "gw.example.dn42")
    ∈ indexed_hosts index (ipaddress.hosts ipnet) ∧
  (IPv4Address 167772176, "net.example.dn42")
    ∉ indexed_hosts index (ipaddress.hosts ipnet).
Proof.
  intros index ipnet. split.
  - apply (rfc2317_records_skip_block_ends "10.0.0.16/28" ipnet index);
      [reflexivity | vm_compute; discriminate |].
    repeat split; try done; try (cbn [valid4]; lia).
  - intros Hin.
    apply (rfc2317_records_skip_block_ends "10.0.0.16/28" ipnet index) in Hin
      as (_ & _ & _ & _ & Hends); [|reflexivity | vm_compute; discriminate].
    destruct Hends as [Hne _]; [vm_compute; reflexivity | by apply Hne].
Defined.

(** *** The files the zone passes leave alone *)




Section Frame.
Context (g : settings) (path : string) (v : option (list string)).
Hypothesis Hpath : ∀ zonename, zone_path g zonename ≠ path.









End Frame.




(** *** The zone name of an IPv6 block *)

(** The [k] low nibbles of [n] as hexadecimal digits, lowest first. *)
Fixpoint nibbles (k : nat) (n : Z) : string :=
  match k with
  | O => EmptyString
  | S k' => String (hex_digit (Z.land n 15)) (nibbles k' (Z.shiftr n 4))
  end.

(** The characters of [s], one label each, in front of [tail]. *)
Fixpoint labels (s tail : string) : string :=
  match s with
  | EmptyString => tail
  | String c s' => String c ("." +:+ labels s' tail)
  end.

(** The [k] low nibbles of [n] from the lowest one that is not zero. *)
Fixpoint significant (k : nat) (n : Z) : string :=
  match k with
  | O => EmptyString
  | S k' => if Z.land n 15 =? 0 then significant k' (Z.shiftr n 4)
            else nibbles k n
  end.

Lemma reversed_app (a b : string) : reversed (a +:+ b) = reversed b +:+ reversed a.
Proof.
  induction a as [|c a IH]; [by rewrite app_empty_l, app_empty_r|].
  rewrite app_cons. simpl. by rewrite IH, app_assoc_str.
Qed.

Lemma replace_app old new (a b : string) :
  replace old new (a +:+ b) = replace old new a +:+ replace old new b.
Proof.
  induction a as [|c a IH]; [done|]. rewrite app_cons. simpl.
  destruct (Ascii.eqb c old); rewrite IH; [by rewrite app_assoc_str | done].
Qed.

Lemma contains_reversed c (s : string) : contains c (reversed s) = contains c s.
Proof.
  induction s as [|x s IH]; [done|]. simpl. rewrite contains_app, IH. simpl.
  destruct (Ascii.eqb x c); [apply orb_true_r | apply orb_false_r].
Qed.

Lemma substring_split (n : nat) (s : string) :
  (n ≤ String.length s)%nat →
  s = String.substring 0 n s +:+ String.substring n (String.length s - n) s.
Proof.
  revert s. induction n as [|n IH]; intros s Hn.
  - rewrite Nat.sub_0_r. destruct s as [|c s]; [done|].
    simpl. rewrite app_empty_l. f_equal.
    clear. induction s as [|x s IH]; [done|]. simpl. by rewrite <- IH.
  - destruct s as [|c s]; [simpl in Hn; lia|]. simpl in *.
    rewrite app_cons. f_equal. apply IH. lia.
Qed.

Lemma substring_length_le (n : nat) (s : string) :
  (n ≤ String.length s)%nat → String.length (String.substring 0 n s) = n.
Proof.
  revert s. induction n as [|n IH]; intros s Hn; [by destruct s|].
  destruct s as [|c s]; [simpl in Hn; lia|]. simpl in *. f_equal. apply IH. lia.
Qed.

(** Printing a string of [4 * k] characters in groups of four with colons,
    reversing it and taking the colons out reverses the string. *)
Lemma reversed_groups (k : nat) (s : string) :
  String.length s = (4 * k)%nat → contains ":" s = false →
  replace ":" "" (reversed (join ":" (groups4 k s))) = reversed s.
Proof.
  revert s. induction k as [|k IH]; intros s Hlen Hcolon.
  - by destruct s.
  - cbn [groups4].
    set (a := String.substring 0 4 s).
    set (r := String.substring 4 (String.length s - 4) s).
    assert (Hs : s = a +:+ r) by (apply substring_split; lia).
    assert (Ha : String.length a = 4%nat) by (apply substring_length_le; lia).
    assert (Hr : String.length r = (4 * k)%nat).
    { apply (f_equal String.length) in Hs. rewrite length_app_str in Hs. lia. }
    clearbody a r. subst s. rewrite contains_app in Hcolon.
    apply orb_false_iff in Hcolon as [Hca Hcr]. rewrite reversed_app.
    destruct k as [|k'].
    + destruct r; [|done]. cbn [groups4 join String.concat].
      rewrite app_empty_l. apply replace_absent. by rewrite contains_reversed.
    + specialize (IH r Hr Hcr). revert IH.
      destruct (groups4 (S k') r) as [|g gs] eqn:Hg; [done|].
      unfold join. cbn [String.concat]. fold (String.concat ":" (g :: gs)).
      intros IH. rewrite !reversed_app, !replace_app, IH.
      rewrite (replace_absent _ _ (reversed a)) by by rewrite contains_reversed.
      change (replace ":" "" (reversed ":")) with EmptyString.
      by rewrite app_empty_r.
Qed.

Lemma nibble_range n : 0 ≤ Z.land n 15 < 16.
Proof.
  change 15 with (Z.ones 4). rewrite Z.land_ones by lia.
  apply Z.mod_pos_bound. lia.
Qed.

Lemma hex_digit_no_colon n : Ascii.eqb (hex_digit (Z.land n 15)) ":" = false.
Proof.
  apply negb_true_iff.
  apply (Z_range_forallb (λ x, negb (Ascii.eqb (hex_digit x) ":")) 16);
    [vm_compute; reflexivity | apply nibble_range].
Qed.

Lemma hex_digit_significant n :
  Z.land n 15 ≠ 0 → contains (hex_digit (Z.land n 15)) "0." = false.
Proof.
  intros Hne.
  pose proof (Z_range_forallb
                (λ x, (x =? 0) || negb (contains (hex_digit x) "0.")) 16
                ltac:(vm_compute; reflexivity) _ (nibble_range n)) as Hb.
  apply orb_true_iff in Hb as [Hb|Hb]; [apply Z.eqb_eq in Hb; lia|].
  by apply negb_true_iff in Hb.
Qed.

Lemma hex_digits_length k n : String.length (hex_digits k n) = k.
Proof.
  revert n. induction k as [|k IH]; intros n; [done|].
  cbn [hex_digits]. rewrite length_app_str, IH. simpl. lia.
Qed.

Lemma hex_digits_no_colon k n : contains ":" (hex_digits k n) = false.
Proof.
  revert n. induction k as [|k IH]; intros n; [done|].
  cbn [hex_digits]. rewrite contains_app, IH. cbn [contains orb].
  by rewrite hex_digit_no_colon.
Qed.

Lemma reversed_hex_digits k n : reversed (hex_digits k n) = nibbles k n.
Proof.
  revert n. induction k as [|k IH]; intros n; [done|].
  cbn [hex_digits nibbles]. rewrite reversed_app, IH. done.
Qed.

Lemma nibbles_length k n : String.length (nibbles k n) = k.
Proof. revert n. induction k as [|k IH]; intros n; simpl; [done | by rewrite IH]. Qed.

Lemma concat_cons2 sep (a b : string) l :
  String.concat sep (a :: b :: l) = a +:+ sep +:+ String.concat sep (b :: l).
Proof. reflexivity. Qed.

Lemma labels_join c (s tail : string) :
  join "." (map (λ c, String c EmptyString) (list_ascii_of_string (String c s)))
    +:+ "." +:+ tail
  = labels (String c s) tail.
Proof.
  unfold join. revert c. induction s as [|x s IH]; intros c; [done|].
  specialize (IH x). cbn [list_ascii_of_string map] in *.
  rewrite concat_cons2, !app_assoc_str, IH. done.
Qed.

Lemma labels_length (s tail : string) :
  String.length (labels s tail) = (2 * String.length s + String.length tail)%nat.
Proof.
  induction s as [|c s IH]; [done|]. cbn [labels String.length].
  rewrite length_app_str, IH. simpl. lia.
Qed.

(** The reverse pointer of an IPv6 address: its 32 nibbles, lowest first,
    one label each. *)
Lemma pointer_name6_form ip :
  pointer_name (IPv6Address ip None) = labels (nibbles 32 ip) "ip6.arpa".
Proof.
  unfold pointer_name, reverse_pointer, exploded6. cbn [obind].
  rewrite reversed_groups;
    [|by rewrite hex_digits_length | apply hex_digits_no_colon].
  rewrite reversed_hex_digits. cbn [nibbles].
  apply (labels_join _ _ "ip6.arpa").
Qed.

(** [lstrip('0.')] takes the zero nibbles off the low end, and the dot in
    front of [ip6] when every nibble is zero. *)
Lemma lstrip_labels k n :
  lstrip "0." (labels (nibbles k n) "ip6.arpa") = labels (significant k n) "ip6.arpa".
Proof.
  revert n. induction k as [|k IH]; intros n; [done|].
  cbn [nibbles significant labels].
  destruct (Z.eqb_spec (Z.land n 15) 0) as [Hz|Hnz].
  - rewrite Hz. change (hex_digit 0) with "0"%char.
    change (String "0" ("." +:+ ?r)) with ("0." +:+ r).
    rewrite lstrip_app by done. apply IH.
  - apply lstrip_stop. by apply hex_digit_significant.
Qed.

Lemma significant_length k n : (String.length (significant k n) ≤ k)%nat.
Proof.
  revert n. induction k as [|k IH]; intros n; [done|]. cbn [significant].
  destruct (Z.land n 15 =? 0); [specialize (IH (Z.shiftr n 4)); lia|].
  by rewrite nibbles_length.
Qed.

Lemma significant_all k n :
  significant k n = nibbles k n ↔ k = O ∨ Z.land n 15 ≠ 0.
Proof.
  destruct k as [|k]; [by split; [left|]|]. cbn [significant].
  destruct (Z.eqb_spec (Z.land n 15) 0) as [Hz|Hnz].
  - split; [|intros [|]; done]. intros Heq.
    apply (f_equal String.length) in Heq.
    pose proof (significant_length k (Z.shiftr n 4)).
    rewrite (nibbles_length (S k)) in Heq. lia.
  - split; [by right | done].
Qed.

(** Zero nibbles at the low end do not count. *)
Lemma significant_skip j m n :
  Z.land n (Z.ones (4 * Z.of_nat j)) = 0 →
  significant (j + m) n = significant m (Z.shiftr n (4 * Z.of_nat j)).
Proof.
  revert n. induction j as [|j IH]; intros n Hlow.
  - by rewrite Z.shiftr_0_r.
  - rewrite Z.land_ones in Hlow by lia.
    replace (4 * Z.of_nat (S j)) with (4 + 4 * Z.of_nat j) in * by lia.
    rewrite Z.pow_add_r in Hlow by lia.
    apply Z.mod_divide in Hlow as [q Hq];
      [|pose proof (Z.pow_pos_nonneg 2 (4 * Z.of_nat j)); lia].
    assert (Hn : n = 16 * (q * 2 ^ (4 * Z.of_nat j))) by lia.
    cbn [Nat.add significant].
    assert (H15 : Z.land n 15 = 0).
    { change 15 with (Z.ones 4). rewrite Z.land_ones by lia.
      rewrite Hn, Z.mul_comm. by apply Z.mod_mul. }
    rewrite H15. cbn [Z.eqb].
    rewrite <- Z.shiftr_shiftr by lia. apply IH.
    rewrite Z.land_ones by lia. rewrite Z.shiftr_div_pow2 by lia.
    change (2 ^ 4) with 16. rewrite Hn, Z.mul_comm, Z.div_mul by lia.
    apply Z.mod_mul. pose proof (Z.pow_pos_nonneg 2 (4 * Z.of_nat j)). lia.
Qed.

Lemma netmask6_land_hostmask p :
  0 ≤ p < 129 →
  Z.land (_ip_int_from_prefix 6 p) (Z.ones (128 - p)) = 0.
Proof.
  intros Hp. apply Z.eqb_eq.
  apply (Z_range_forallb
           (λ p, Z.land (_ip_int_from_prefix 6 p) (Z.ones (128 - p)) =? 0) 129);
    [vm_compute; reflexivity | lia].
Qed.

Lemma _make_netmask6_form arg nm p :
  _make_netmask 6 arg = Return (nm, p) →
  nm = IPv6Address (_ip_int_from_prefix 6 p) None ∧ 0 ≤ p ≤ 128.
Proof.
  unfold _make_netmask. change (6 =? 4) with false.
  change (max_prefixlen 6) with 128. cbv iota.
  destruct arg as [n|s].
  - destruct ((0 <=? n) && (n <=? 128)) eqn:Hb; cbn [negb obind]; [|done].
    intros [= <- <-]. apply andb_true_iff in Hb as [H0 H1]. split; [done | lia].
  - unfold _prefix_from_prefix_string. change (max_prefixlen 6) with 128.
    destruct (isdigit s); cbn [negb obind]; [|done].
    destruct ((0 <=? int10 s) && (int10 s <=? 128)) eqn:Hb; cbn [negb obind];
      [|done].
    intros [= <- <-]. apply andb_true_iff in Hb as [H0 H1]. split; [done | lia].
Qed.

(** What [IPv6Network] returns: a prefix length up to 128, its netmask, and
    an address with no bit set below the prefix. *)
Lemma IPv6Network_wf netblock n :
  IPv6Network netblock = Return n →
  ∃ ip sc, network_address n = IPv6Address ip sc ∧
           0 ≤ prefixlen n ≤ 128 ∧
           Z.land ip (Z.ones (128 - prefixlen n)) = 0.
Proof.
  unfold IPv6Network.
  destruct (_split_addr_prefix 6 netblock) as [[addr mask]|]; [|done].
  destruct (IPv6Address_of_str addr) as [na|] eqn:Hna; cbn [obind]; [|done].
  destruct (_make_netmask 6 mask) as [[nm p]|] eqn:Hnm; cbn [obind]; [|done].
  intros Hn. apply _strict_form in Hn as [-> Hstrict].
  apply _make_netmask6_form in Hnm as [-> Hp]. cbn [fst snd int] in *.
  assert (Hform : ∃ ip sc, na = IPv6Address ip sc).
  { revert Hna. unfold IPv6Address_of_str.
    destruct (contains "/" addr); [done|].
    destruct (_split_scope_id addr) as [[a sc]|]; [|done].
    destruct (_ip_int_from_string6 a) as [ip|]; cbn [obind]; [|done].
    intros [= <-]. by eexists _, _. }
  destruct Hform as (ip & sc & ->). exists ip, sc. cbn [int] in Hstrict.
  cbn [network_address prefixlen]. split; [done|]. split; [done|].
  rewrite <- Hstrict, <- Z.land_assoc, netmask6_land_hostmask by lia.
  apply Z.land_0_r.
Qed.

(** The zone name [write_ptr6_zone] gives a block has one label per nibble
    of the network address from its lowest non-zero nibble upwards; the
    prefix length plays no part in it.  For a prefix length that is a
    multiple of 4 it is the usual name, of one label per nibble of the
    prefix, exactly when the last nibble of the prefix is not zero (or the
    prefix is empty); a prefix that ends in zero nibbles gets the zone name
    of a shorter prefix. *)
Theorem ip6_zone_name_stops_at_nonzero_nibble netblock ipnet ip :
  IPv6Network netblock = Return ipnet →
  network_address ipnet = IPv6Address ip None →
  let p := prefixlen ipnet in
  let prefix := Z.shiftr ip (128 - p) in
  stripped_reverse_pointer (network_address ipnet)
    = Return (labels (significant 32 ip) "ip6.arpa") ∧
  (p mod 4 = 0 →
   labels (significant 32 ip) "ip6.arpa"
     = labels (nibbles (Z.to_nat (p / 4)) prefix) "ip6.arpa"
   ↔ p = 0 ∨ Z.land prefix 15 ≠ 0).
Proof.
  intros Hparse Hna p prefix.
  destruct (IPv6Network_wf _ _ Hparse) as (ip' & sc & Hna' & Hp & Hlow).
  rewrite Hna in Hna'. injection Hna' as <- <-. fold p in Hp, Hlow.
  split.
  - rewrite Hna, stripped_reverse_pointer_unscoped by done.
    by rewrite pointer_name6_form, lstrip_labels.
  - intros Hmod.
    set (m := Z.to_nat (p / 4)).
    assert (Hpm : p = 4 * Z.of_nat m).
    { subst m. pose proof (Z.div_mod p 4 ltac:(lia)). lia. }
    assert (Hj : 128 - p = 4 * Z.of_nat (32 - m)) by lia.
    assert (Hskip : significant 32 ip = significant m prefix).
    { replace 32%nat with ((32 - m) + m)%nat by lia.
      subst prefix. rewrite Hj. apply significant_skip. by rewrite <- Hj. }
    rewrite Hskip. split.
    + intros Heq.
      assert (Hsig : significant m prefix = nibbles m prefix).
      { clear -Heq. revert Heq.
        generalize (significant m prefix) (nibbles m prefix).
        intros a. induction a as [|c a IH]; intros [|d b]; cbn [labels].
        - done.
        - intros Heq. apply (f_equal String.length) in Heq.
          cbn [String.length] in Heq. rewrite length_app_str, labels_length in Heq.
          simpl in Heq. lia.
        - intros Heq. apply (f_equal String.length) in Heq.
          cbn [String.length] in Heq. rewrite length_app_str, labels_length in Heq.
          simpl in Heq. lia.
        - intros [= -> Heq]. f_equal. apply IH.
          by apply String.app_inj in Heq. }
      apply significant_all in Hsig as [Hm|Hnz]; [left; lia | by right].
    + intros Hcase. f_equal. apply significant_all.
      destruct Hcase as [Hp0|Hnz]; [left; lia | by right].
Qed.

Lemma ip6_zone_name_stops_at_nonzero_nibble_witness :
  let ipnet := Network (IPv6Address 336638718406100011793051573312682983424 None)
                       (IPv6Address 340282366920937254537554992802593505280 None) 48 in
  IPv6Network "fd42:4242:2600::/48" = Return ipnet ∧
  stripped_reverse_pointer (network_address ipnet)
    = Return "6.2.2.4.2.4.2.4.d.f.ip6.arpa".
Proof.
  intros ipnet. split; [vm_compute; reflexivity|].
  destruct (ip6_zone_name_stops_at_nonzero_nibble
              "fd42:4242:2600::/48" ipnet 336638718406100011793051573312682983424
              ltac:(vm_compute; reflexivity) eq_refl) as [Hname _].
  rewrite Hname. vm_compute. reflexivity.
Defined.

(** *** Where the names in the PTR index come from *)


Section IndexNames.
Context (g : settings).







End IndexNames.


